(** * Survey dashboard (dineth.py): generator and refresh callback

    A shallow embedding of [generate_survey_data], [update_dashboard], the
    start-up of the module and the program dropdown of its layout.

    Modelling choices.
    - Python floats are exact rationals ([Q]); decimal literals such as
      [0.3] are the rationals they denote.
    - The NumPy global generator is a tape of raw variates with a cursor;
      [np.random.seed(None)] swaps in a fresh tape taken from the operating
      system's entropy, of which the world keeps an unbounded supply.
    - A pandas DataFrame is an object in a heap, named by a reference, so
      that two names for one frame see each other's column assignments.
    - A raised Python exception is the [Raise] result. *)

From Stdlib Require Import QArith Qround Lqa ZArith Lia Sorted.
From stdpp Require Import gmap strings list fin_maps pretty.

Local Open Scope string_scope.
Local Open Scope list_scope.

(** ** Values, rows and frames *)

(** A cell of a frame: a Python [str], a float, or the missing value. *)
Inductive value :=
  | VStr (s : string)
  | VNum (q : Q)
  | NaN.

(** One row is the dict of its cells, keyed by column name. *)
Abbreviation row := (gmap string value).

Record DataFrame := mkDataFrame {
  columns : gset string;
  rows : list row
}.

(** A reference to a frame in the heap. *)
Abbreviation ref := nat (only parsing).

(** ** Worlds *)

Record RandomState := mkRandomState {
  tape : nat → Q;
  cursor : nat
}.

Record World := mkWorld {
  heap : list DataFrame;
  df_global : ref;
  np_random : RandomState;
  os_entropy : nat → nat → Q;
  reseeds : nat
}.

Definition set_heap (h : list DataFrame) (w : World) : World :=
  mkWorld h (df_global w) (np_random w) (os_entropy w) (reseeds w).

Definition set_df_global (r : ref) (w : World) : World :=
  mkWorld (heap w) r (np_random w) (os_entropy w) (reseeds w).

Definition set_np_random (rs : RandomState) (w : World) : World :=
  mkWorld (heap w) (df_global w) rs (os_entropy w) (reseeds w).

(** ** The monad of the interpreter: state and exceptions *)

Inductive exn :=
  | KeyError (k : string)
  | ValueError
  | IndexError
  | TypeError
  | ReferenceError.

Inductive result (A : Type) :=
  | Ok (a : A)
  | Raise (e : exn).
Arguments Ok {A} a.
Arguments Raise {A} e.

Definition M (A : Type) : Type := World → result (A * World).

#[global] Instance M_ret : MRet M := λ A a w, Ok (a, w).

#[global] Instance M_bind : MBind M := λ A B f m w,
  match m w with
  | Ok (a, w') => f a w'
  | Raise e => Raise e
  end.

Definition raise {A : Type} (e : exn) : M A := λ _, Raise e.

(** ** NumPy's generator *)

Definition Qlt_bool (x y : Q) : bool := negb (Qle_bool y x).

(** The fractional part, in [0, 1). *)
Definition frac (q : Q) : Q := (Qnum q mod Z.pos (Qden q)) # Qden q.

Definition advance (w : World) : World :=
  set_np_random (mkRandomState (tape (np_random w)) (S (cursor (np_random w)))) w.

Definition peek (w : World) : Q := tape (np_random w) (cursor (np_random w)).

Definition next_variate : M Q := λ w, Ok (peek w, advance w).

(** [np.random.seed(None)]: fresh entropy from the operating system. *)
Definition seed_None : M unit := λ w,
  Ok ((), mkWorld (heap w) (df_global w)
            (mkRandomState (os_entropy w (reseeds w)) 0)
            (os_entropy w) (S (reseeds w))).

(** [random_sample()]: a float in [0, 1). *)
Definition random_sample : M Q :=
  q ← next_variate; mret (frac q).

(** [np.random.normal(loc, scale)]: loc + scale * standard normal. *)
Definition normal (loc scale : Q) : M Q :=
  z ← next_variate; mret (loc + scale * z)%Q.

(** One draw of [np.random.uniform(low, high)]. *)
Definition uniform (low high : Q) : M Q :=
  u ← random_sample; mret (low + (high - low) * u)%Q.

(** [np.random.uniform(low, high, size)]: [size] draws, in order. *)
Fixpoint uniform_array (low high : Q) (size : nat) : M (list Q) :=
  match size with
  | O => mret []
  | S k =>
      x ← uniform low high;
      xs ← uniform_array low high k;
      mret (x :: xs)
  end.

(** [randint(0, n)]. *)
Definition randint (n : nat) : M nat :=
  u ← random_sample; mret (Z.to_nat (Qfloor (u * inject_Z (Z.of_nat n)))).

(** [np.random.choice(a)]: uniform over a non-empty sequence. *)
Definition choice (a : list string) : M string :=
  match a with
  | [] => raise ValueError
  | _ =>
      i ← randint (length a);
      match a !! i with
      | Some x => mret x
      | None => raise IndexError
      end
  end.

Fixpoint cumsum (acc : Q) (p : list Q) : list Q :=
  match p with
  | [] => []
  | x :: t => (acc + x)%Q :: cumsum (acc + x)%Q t
  end.

Definition Qsum (p : list Q) : Q := foldr Qplus 0%Q p.

(** [cdf.searchsorted(u, side='right')] on a sorted array: the first index
    whose entry exceeds [u]. *)
Fixpoint searchsorted_right (cdf : list Q) (u : Q) : nat :=
  match cdf with
  | [] => O
  | c :: t => if Qle_bool c u then S (searchsorted_right t u) else O
  end.

(** What [choice] checks of [p] before drawing. *)
Definition valid_p (a : list string) (p : list Q) : bool :=
  (length a =? length p)%nat && forallb (Qle_bool 0) p && Qeq_bool (Qsum p) 1.

(** [np.random.choice(a, p=p)]. *)
Definition choice_p (a : list string) (p : list Q) : M string :=
  if valid_p a p then
    u ← random_sample;
    match a !! searchsorted_right (cumsum 0 p) u with
    | Some x => mret x
    | None => raise IndexError
    end
  else raise ValueError.

(** ** pandas *)

Definition alloc (d : DataFrame) : M ref := λ w,
  Ok (length (heap w), set_heap (heap w ++ [d]) w).

Definition load (r : ref) : M DataFrame := λ w,
  match heap w !! r with
  | Some d => Ok (d, w)
  | None => Raise ReferenceError
  end.

Definition store (r : ref) (d : DataFrame) : M unit := λ w,
  match heap w !! r with
  | Some _ => Ok ((), set_heap (<[r := d]> (heap w)) w)
  | None => Raise ReferenceError
  end.

(** A row widened to the given columns; absent cells are missing values. *)
Definition fill (cols : gset string) (r : row) : row :=
  r ∪ gset_to_gmap NaN cols.

Definition all_keys (rs : list row) : gset string :=
  foldr (λ r acc, dom r ∪ acc) ∅ rs.

(** [pd.DataFrame(records)] for a list of dicts. *)
Definition frame_of_records (rs : list row) : DataFrame :=
  mkDataFrame (all_keys rs) (fill (all_keys rs) <$> rs).

Definition pd_DataFrame (rs : list row) : M ref :=
  alloc (frame_of_records rs).

(** [pd.concat([a, b], ignore_index=True)] on the frames themselves. *)
Definition concat_frames (a b : DataFrame) : DataFrame :=
  mkDataFrame (columns a ∪ columns b)
              (fill (columns a ∪ columns b) <$> (rows a ++ rows b)).

Definition pd_concat (a b : ref) : M ref :=
  da ← load a; db ← load b; alloc (concat_frames da db).

(** A cell read through its column name. *)
Definition cell (col : string) (r : row) : value := default NaN (r !! col).

(** [df[col]]: the column as a Series, or [KeyError]. *)
Definition getitem (r : ref) (col : string) : M (list value) :=
  d ← load r;
  if decide (col ∈ columns d) then mret (cell col <$> rows d)
  else raise (KeyError col).

(** The cell-wise [==] of a Series with a Python value, here a [str] or
    [None]. No cell equals [None], and only a [str] equals a [str]. *)
Definition cell_eq (selected : option string) (v : value) : bool :=
  match v, selected with
  | VStr s, Some p => String.eqb s p
  | _, _ => false
  end.

Fixpoint select {A : Type} (xs : list A) (mask : list bool) : list A :=
  match xs, mask with
  | x :: xs', b :: mask' => if b then x :: select xs' mask' else select xs' mask'
  | _, _ => []
  end.

(** [df[mask]]: a new frame of the rows the mask keeps. *)
Definition getitem_mask (r : ref) (mask : list bool) : M ref :=
  d ← load r; alloc (mkDataFrame (columns d) (select (rows d) mask)).

(** [df.copy()]. *)
Definition copy (r : ref) : M ref :=
  d ← load r; alloc d.

(** [df.empty]: some axis has length zero. *)
Definition is_empty (d : DataFrame) : bool :=
  match rows d with
  | [] => true
  | _ => bool_decide (columns d = ∅)
  end.

Definition empty (r : ref) : M bool :=
  d ← load r; mret (is_empty d).

(** [len(df)]. *)
Definition len (r : ref) : M nat :=
  d ← load r; mret (length (rows d)).

(** [series.map(mapping)] for a dict of numbers. *)
Definition series_map (m : gmap string Q) (s : list value) : list value :=
  (λ v, match v with
        | VStr k => match m !! k with Some q => VNum q | None => NaN end
        | _ => NaN
        end) <$> s.

Fixpoint set_column (col : string) (rs : list row) (s : list value) : list row :=
  match rs, s with
  | r :: rs', v :: s' => <[col := v]> r :: set_column col rs' s'
  | _, _ => rs
  end.

(** [df[col] = series]: assignment in place, on the object [r] names. *)
Definition setitem (r : ref) (col : string) (s : list value) : M unit :=
  d ← load r;
  store r (mkDataFrame (columns d ∪ {[col]}) (set_column col (rows d) s)).

(** [series + array], cell by cell. *)
Definition add_cell (v : value) (x : Q) : result value :=
  match v with
  | VNum q => Ok (VNum (q + x)%Q)
  | NaN => Ok NaN
  | VStr _ => Raise TypeError
  end.

Fixpoint series_add (s : list value) (xs : list Q) : M (list value) :=
  match s, xs with
  | v :: s', x :: xs' =>
      match add_cell v x with
      | Ok v' => t ← series_add s' xs'; mret (v' :: t)
      | Raise e => raise e
      end
  | [], [] => mret []
  | _, _ => raise ValueError
  end.

Definition value_eqb (a b : value) : bool :=
  match a, b with
  | VStr s, VStr t => String.eqb s t
  | VNum p, VNum q => Qeq_bool p q
  | _, _ => false
  end.

Fixpoint count_into (v : value) (acc : list (value * nat)) : list (value * nat) :=
  match acc with
  | [] => [(v, 1%nat)]
  | (k, c) :: t =>
      if value_eqb k v then (k, S c) :: t else (k, c) :: count_into v t
  end.

(** Occurrences per distinct value, in order of first appearance; missing
    values are dropped. *)
Definition tally (s : list value) : list (value * nat) :=
  foldl (λ acc v, match v with NaN => acc | _ => count_into v acc end) [] s.

Fixpoint insert_desc (x : value * nat) (l : list (value * nat)) : list (value * nat) :=
  match l with
  | [] => [x]
  | y :: t => if (snd y <? snd x)%nat then x :: l else y :: insert_desc x t
  end.

(** [series.value_counts()]: the tally, most frequent first, ties in order
    of first appearance. *)
Definition value_counts (s : list value) : list (value * nat) :=
  foldl (λ acc x, insert_desc x acc) [] (tally s).

(** ** plotly express *)

Record Scatter := mkScatter {
  scatter_title : string;
  scatter_points : list (value * value * value)
}.

Record Bar := mkBar {
  bar_title : string;
  bar_data : list (value * nat)
}.

Record Pie := mkPie {
  pie_title : string;
  pie_names : list value
}.

Fixpoint zip3 {A B C : Type} (xs : list A) (ys : list B) (zs : list C) : list (A * B * C) :=
  match xs, ys, zs with
  | x :: xs', y :: ys', z :: zs' => (x, y, z) :: zip3 xs' ys' zs'
  | _, _, _ => []
  end.

(** [px.scatter(df, x=, y=, color=, title=)]: one point per row. *)
Definition px_scatter (r : ref) (x y color title : string) : M Scatter :=
  xs ← getitem r x;
  ys ← getitem r y;
  cs ← getitem r color;
  mret (mkScatter title (zip3 xs ys cs)).

(** [px.bar(counts, x=, y=, title=)] on the two-column frame of counts. *)
Definition px_bar (counts : list (value * nat)) (title : string) : Bar :=
  mkBar title counts.

(** [px.pie(df, names=, title=)]: one unit slice per row, under its name. *)
Definition px_pie (r : ref) (names title : string) : M Pie :=
  ns ← getitem r names;
  mret (mkPie title ns).

(** ** 1. Data generation *)

Definition age_groups : list string :=
  ["Under 18"; "18–20"; "21–23"; "24–26"; "27–29"].
Definition genders : list string := ["Male"; "Female"; "Prefer not to say"].
Definition programs : list string :=
  ["Data science"; "Fashion design"; "Arts and Interior Architecture";
   "Psychology & Counselling"].

(** The body of the loop of [generate_survey_data] from the bucketing on:
    the bucket of the score, the draws of its regime, and the row. *)
Definition survey_row (program : string) (hidden_sm_score : Q) : M row :=
  let sm_choice :=
    if Qlt_bool hidden_sm_score 2 then "Less than 1 hour"
    else if Qlt_bool hidden_sm_score 4 then "1–2 hours"
    else if Qlt_bool hidden_sm_score 6 then "3–4 hours"
    else if Qlt_bool hidden_sm_score 8 then "5–6 hours"
    else "More than 6 hours" in
  '(distraction, impact, study_choice) ←
    (if Qlt_bool 6 hidden_sm_score then
       distraction ← choice_p ["Often"; "Always"] [0.4; 0.6]%Q;
       impact ← choice_p ["Somewhat Negative"; "Strongly Negative"] [0.4; 0.6]%Q;
       study_choice ← choice_p ["Less than 2 hours"; "2–4 hours"] [0.6; 0.4]%Q;
       mret (distraction, impact, study_choice)
     else if Qlt_bool hidden_sm_score 3 then
       distraction ← choice_p ["Never"; "Rarely"] [0.3; 0.7]%Q;
       impact ← choice_p ["Strongly Positive"; "Somewhat Positive"; "Neutral"]
                         [0.2; 0.3; 0.5]%Q;
       study_choice ← choice_p ["5–7 hours"; "8+ hours"] [0.6; 0.4]%Q;
       mret (distraction, impact, study_choice)
     else
       distraction ← choice_p ["Sometimes"; "Often"] [0.7; 0.3]%Q;
       impact ← choice_p ["Neutral"; "Somewhat Negative"] [0.7; 0.3]%Q;
       study_choice ← choice_p ["2–4 hours"; "5–7 hours"] [0.5; 0.5]%Q;
       mret (distraction, impact, study_choice));
  mret (<["Program_of_Study" := VStr program]>
       (<["Average_Daily_SM_Usage" := VStr sm_choice]>
       (<["Daily_Study_Work_Hours" := VStr study_choice]>
       (<["Distraction_Frequency" := VStr distraction]>
       (<["Productivity_Impact" := VStr impact]> ∅))))).

(** One pass of the loop. *)
Definition survey_record : M row :=
  program ← choice programs;
  hidden_sm_score ← normal 5 2.5;
  survey_row program hidden_sm_score.

(** [for i in range(k)], appending to [new_data]. *)
Fixpoint generate_loop (k : nat) (new_data : list row) : M (list row) :=
  match k with
  | O => mret new_data
  | S k' =>
      r ← survey_record;
      generate_loop k' (new_data ++ [r])
  end.

Definition generate_survey_data (n : Z) : M ref :=
  _ ← seed_None;
  new_data ← generate_loop (Z.to_nat n) [];
  pd_DataFrame new_data.

(** Mappings for the scatter plot. *)
Definition sm_map : gmap string Q :=
  <["Less than 1 hour" := 0.5%Q]> (<["1–2 hours" := 1.5%Q]>
  (<["3–4 hours" := 3.5%Q]> (<["5–6 hours" := 5.5%Q]>
  (<["More than 6 hours" := 7%Q]> ∅)))).

Definition study_map : gmap string Q :=
  <["Less than 2 hours" := 1%Q]> (<["2–4 hours" := 3%Q]>
  (<["5–7 hours" := 6%Q]> (<["8+ hours" := 9%Q]> ∅))).

(** ** 3. Interactivity *)

Definition get_df_global : M ref := λ w, Ok (df_global w, w).

Definition assign_df_global (r : ref) : M unit := λ w, Ok ((), set_df_global r w).

(** [str(selected_program)] inside an f-string. *)
Definition str (selected_program : option string) : string :=
  default "None" selected_program.

Definition Output : Type := Scatter * Bar * Pie * string.

Definition update_dashboard (n : Z) (selected_program : option string) : M Output :=
  new_entry ← generate_survey_data 1;
  g ← get_df_global;
  g' ← pd_concat g new_entry;
  _ ← assign_df_global g';

  g ← get_df_global;
  p ← getitem g "Program_of_Study";
  s ← getitem_mask g (cell_eq selected_program <$> p);
  filtered_df ← copy s;
  e ← empty filtered_df;
  filtered_df ← (if e : bool then get_df_global else mret filtered_df);

  usage ← getitem filtered_df "Average_Daily_SM_Usage";
  _ ← setitem filtered_df "SM_Numeric" (series_map sm_map usage);
  study ← getitem filtered_df "Daily_Study_Work_Hours";
  _ ← setitem filtered_df "Study_Numeric" (series_map study_map study);
  sm ← getitem filtered_df "SM_Numeric";
  k ← len filtered_df;
  jitter ← uniform_array (-0.3) 0.3 k;
  sm ← series_add sm jitter;
  _ ← setitem filtered_df "SM_Numeric" sm;
  st ← getitem filtered_df "Study_Numeric";
  k ← len filtered_df;
  jitter ← uniform_array (-0.3) 0.3 k;
  st ← series_add st jitter;
  _ ← setitem filtered_df "Study_Numeric" st;

  fig1 ← px_scatter filtered_df "SM_Numeric" "Study_Numeric" "Distraction_Frequency"
                    ("Correlation (" +:+ str selected_program +:+ ")");
  d ← getitem filtered_df "Distraction_Frequency";
  let fig2 := px_bar (value_counts d) "Distraction Frequency" in
  fig3 ← px_pie filtered_df "Productivity_Impact" "Perceived Impact";
  g ← get_df_global;
  total ← len g;
  mret (fig1, fig2, fig3, "Total Responses: " +:+ pretty total).

(** Module start-up: [df_global = generate_survey_data(100)]. *)
Definition module_init : M unit :=
  r ← generate_survey_data 100;
  assign_df_global r.

(** The process before the module body runs: nothing allocated yet. *)
Definition boot (entropy : nat → nat → Q) : World :=
  mkWorld [] 0 (mkRandomState (λ _, 0%Q) 0) entropy 0.

(** * Specification vocabulary

    The predicates the properties are stated with, the values the proofs
    name, and the example worlds. *)

(** The dict literal that closes the loop body. *)
Definition record (program sm_choice study_choice distraction impact : string) : row :=
  <["Program_of_Study" := VStr program]>
  (<["Average_Daily_SM_Usage" := VStr sm_choice]>
  (<["Daily_Study_Work_Hours" := VStr study_choice]>
  (<["Distraction_Frequency" := VStr distraction]>
  (<["Productivity_Impact" := VStr impact]> ∅)))).

(** The threshold table of the usage bucket. *)
Definition bucket (s : Q) (usage : string) : Prop :=
  ((s < 2)%Q → usage = "Less than 1 hour") ∧
  ((2 <= s)%Q ∧ (s < 4)%Q → usage = "1–2 hours") ∧
  ((4 <= s)%Q ∧ (s < 6)%Q → usage = "3–4 hours") ∧
  ((6 <= s)%Q ∧ (s < 8)%Q → usage = "5–6 hours") ∧
  ((8 <= s)%Q → usage = "More than 6 hours").

(** The value tables of the three regimes. *)
Definition heavy_values (distraction impact study : string) : Prop :=
  distraction ∈ ["Often"; "Always"] ∧
  impact ∈ ["Somewhat Negative"; "Strongly Negative"] ∧
  study ∈ ["Less than 2 hours"; "2–4 hours"].

Definition light_values (distraction impact study : string) : Prop :=
  distraction ∈ ["Never"; "Rarely"] ∧
  impact ∈ ["Strongly Positive"; "Somewhat Positive"; "Neutral"] ∧
  study ∈ ["5–7 hours"; "8+ hours"].

Definition average_values (distraction impact study : string) : Prop :=
  distraction ∈ ["Sometimes"; "Often"] ∧
  impact ∈ ["Neutral"; "Somewhat Negative"] ∧
  study ∈ ["2–4 hours"; "5–7 hours"].

Definition regime (s : Q) (distraction impact study : string) : Prop :=
  ((6 < s)%Q → heavy_values distraction impact study) ∧
  ((s < 3)%Q → light_values distraction impact study) ∧
  ((3 <= s)%Q ∧ (s <= 6)%Q → average_values distraction impact study).

(** The world once three variates have been consumed. *)
Definition advance3 (w : World) : World := advance (advance (advance w)).

(** The world once [k] variates have been consumed. *)
Definition advance_by (k : nat) (w : World) : World :=
  set_np_random
    (mkRandomState (tape (np_random w)) (k + cursor (np_random w))) w.

(** The world [seed_None] leaves. *)
Definition seeded (w : World) : World :=
  mkWorld (heap w) (df_global w) (mkRandomState (os_entropy w (reseeds w)) 0)
          (os_entropy w) (S (reseeds w)).

(** One pass of the loop from world [w]: it draws the program, then the
    score [s], then builds the row [r] from them. *)
Definition pass (w : World) (s : Q) (r : row) : Prop :=
  ∃ program,
    program ∈ programs ∧
    choice programs w = Ok (program, advance_by 1 w) ∧
    normal 5 2.5 (advance_by 1 w) = Ok (s, advance_by 2 w) ∧
    survey_row program s (advance_by 2 w) = Ok (r, advance_by 5 w).

(** The columns of a generated row. *)
Definition survey_columns : gset string :=
  {["Program_of_Study"; "Average_Daily_SM_Usage"; "Daily_Study_Work_Hours";
    "Distraction_Frequency"; "Productivity_Impact"]}.

(** The draws of [np.random.uniform(low, high, k)] from world [w]. *)
Fixpoint draws (low high : Q) (k : nat) (w : World) : list Q :=
  match k with
  | O => []
  | S k' => (low + (high - low) * frac (peek w))%Q :: draws low high k' (advance_by 1 w)
  end.

(** The total form of [series + array] on numeric cells. *)
Definition add_jitter (v : value) (x : Q) : value :=
  match v with
  | VNum q => VNum (q + x)%Q
  | _ => NaN
  end.

(** The part of [update_dashboard] that follows the choice of
    [filtered_df]: projections, jitter, figures and summary. *)
Definition render (selected_program : option string) (filtered_df : ref) : M Output :=
  usage ← getitem filtered_df "Average_Daily_SM_Usage";
  _ ← setitem filtered_df "SM_Numeric" (series_map sm_map usage);
  study ← getitem filtered_df "Daily_Study_Work_Hours";
  _ ← setitem filtered_df "Study_Numeric" (series_map study_map study);
  sm ← getitem filtered_df "SM_Numeric";
  k ← len filtered_df;
  jitter ← uniform_array (-0.3) 0.3 k;
  sm ← series_add sm jitter;
  _ ← setitem filtered_df "SM_Numeric" sm;
  st ← getitem filtered_df "Study_Numeric";
  k ← len filtered_df;
  jitter ← uniform_array (-0.3) 0.3 k;
  st ← series_add st jitter;
  _ ← setitem filtered_df "Study_Numeric" st;
  fig1 ← px_scatter filtered_df "SM_Numeric" "Study_Numeric" "Distraction_Frequency"
                    ("Correlation (" +:+ str selected_program +:+ ")");
  d ← getitem filtered_df "Distraction_Frequency";
  let fig2 := px_bar (value_counts d) "Distraction Frequency" in
  fig3 ← px_pie filtered_df "Productivity_Impact" "Perceived Impact";
  g ← get_df_global;
  total ← len g;
  mret (fig1, fig2, fig3, "Total Responses: " +:+ pretty total).

(** The midpoints of a column's buckets, each moved by its jitter. *)
Definition jittered (m : gmap string Q) (col : string) (rs : list row) (js : list Q)
  : list value :=
  zip_with add_jitter (series_map m (cell col <$> rs)) js.

(** The frame [filtered_df] names once the four assignments are done. *)
Definition projected (f0 : DataFrame) (jx jy : list Q) : DataFrame :=
  mkDataFrame
    (columns f0 ∪ {["SM_Numeric"]} ∪ {["Study_Numeric"]}
                ∪ {["SM_Numeric"]} ∪ {["Study_Numeric"]})
    (set_column "Study_Numeric"
       (set_column "SM_Numeric"
          (set_column "Study_Numeric"
             (set_column "SM_Numeric" (rows f0)
                (series_map sm_map (cell "Average_Daily_SM_Usage" <$> rows f0)))
             (series_map study_map (cell "Daily_Study_Work_Hours" <$> rows f0)))
          (jittered sm_map "Average_Daily_SM_Usage" (rows f0) jx))
       (jittered study_map "Daily_Study_Work_Hours" (rows f0) jy)).

(** The four outputs computed from the rows that were retained. *)
Definition figures (selected_program : option string) (rs : list row)
    (jx jy : list Q) (total : nat) : Output :=
  (mkScatter ("Correlation (" +:+ str selected_program +:+ ")")
     (zip3 (jittered sm_map "Average_Daily_SM_Usage" rs jx)
           (jittered study_map "Daily_Study_Work_Hours" rs jy)
           (cell "Distraction_Frequency" <$> rs)),
   mkBar "Distraction Frequency" (value_counts (cell "Distraction_Frequency" <$> rs)),
   mkPie "Perceived Impact" (cell "Productivity_Impact" <$> rs),
   "Total Responses: " +:+ pretty total).

(** The frame [df_global] names after the append. *)
Definition appended (d : DataFrame) (r0 : row) : DataFrame :=
  concat_frames d (mkDataFrame survey_columns [r0]).

(** The rows of a frame whose program is the selected one. *)
Definition matching (sel : option string) (d : DataFrame) : list row :=
  select (rows d) (cell_eq sel <$> (cell "Program_of_Study" <$> rows d)).

(** The frame [filtered_df] names before the projections. *)
Definition retained (sel : option string) (d : DataFrame) : DataFrame :=
  if matching sel d is [] then d else mkDataFrame (columns d) (matching sel d).

(** The fixed domains of the five categorical fields. *)
Definition usage_buckets : list string :=
  ["Less than 1 hour"; "1–2 hours"; "3–4 hours"; "5–6 hours"; "More than 6 hours"].

Definition study_buckets : list string :=
  ["Less than 2 hours"; "2–4 hours"; "5–7 hours"; "8+ hours"].

Definition distraction_levels : list string :=
  ["Never"; "Rarely"; "Sometimes"; "Often"; "Always"].

Definition impact_levels : list string :=
  ["Strongly Positive"; "Somewhat Positive"; "Neutral"; "Somewhat Negative";
   "Strongly Negative"].

(** A field holds a non-empty string of the given domain. *)
Definition field_in (col : string) (domain : list string) (r : row) : Prop :=
  ∃ v, r !! col = Some (VStr v) ∧ v ≠ "" ∧ v ∈ domain.

Definition in_domains (r : row) : Prop :=
  field_in "Program_of_Study" programs r ∧
  field_in "Average_Daily_SM_Usage" usage_buckets r ∧
  field_in "Daily_Study_Work_Hours" study_buckets r ∧
  field_in "Distraction_Frequency" distraction_levels r ∧
  field_in "Productivity_Impact" impact_levels r.

(** The three regime-conditional fields of a row. *)
Definition fields (r : row) (distraction impact study : string) : Prop :=
  r !! "Distraction_Frequency" = Some (VStr distraction) ∧
  r !! "Productivity_Impact" = Some (VStr impact) ∧
  r !! "Daily_Study_Work_Hours" = Some (VStr study).

Definition usage_is (r : row) (usage : string) : Prop :=
  r !! "Average_Daily_SM_Usage" = Some (VStr usage).

(** Case analysis on membership in a list given by its elements. *)
Ltac in_list H :=
  repeat (apply elem_of_cons in H as [H | H];
          [first [discriminate H | subst | idtac] |]);
  try (by apply elem_of_nil in H).

(** Worlds whose next pass draws a chosen score: the second variate of the
    tape is the standard normal value, the others sit at one half. *)
Definition world_of (z : Q) : World :=
  mkWorld [] 0 (mkRandomState (λ i, if (i =? 1)%nat then z else 0.5%Q) 0)
          (λ _ _, 0%Q) 0.

(** The host framework calling the callback once per event, in order. *)
Fixpoint refreshes (calls : list (Z * option string)) : M (list Output) :=
  match calls with
  | [] => mret []
  | (n, selected_program) :: rest =>
      o ← update_dashboard n selected_program;
      os ← refreshes rest;
      mret (o :: os)
  end.

(** The fourth output of a call. *)
Definition summary_text (o : Output) : string := snd o.

(** An entropy supply for the examples: tape [k], position [i]. *)
Definition entropy_example : nat → nat → Q :=
  λ k i, (Z.of_nat (7 * i + 3 * k + 1) # 4)%Q.

(** A process whose Dataset holds no record yet. *)
Definition world_blank : World :=
  mkWorld [mkDataFrame ∅ []] 0 (mkRandomState (λ _, 0%Q) 0) entropy_example 0.

(** The data the three figures plot, without their titles. *)
Definition chart_data (o : Output)
  : list (value * value * value) * list (value * nat) * list value :=
  let '(fig1, fig2, fig3, _) := o in
  (scatter_points fig1, bar_data fig2, pie_names fig3).

(** The worlds the process can be in between two calls of the callback. *)
Inductive reachable : World → Prop :=
  | reach_init entropy w :
      module_init (boot entropy) = Ok ((), w) → reachable w
  | reach_refresh w n selected_program out w' :
      reachable w →
      update_dashboard n selected_program w = Ok (out, w') →
      reachable w'.


(** The process right after start-up, on the example entropy. *)
Definition world_example : World :=
  match module_init (boot entropy_example) with
  | Ok (_, w) => w
  | Raise _ => boot entropy_example
  end.

(** ** The layout's dropdown and further vocabulary *)

(** NaN-aware sameness of two cells, as [unique] sees it. *)
Definition value_same (a b : value) : bool :=
  match a, b with
  | NaN, NaN => true
  | _, _ => value_eqb a b
  end.

(** [series.unique()]: the distinct cells, in order of first appearance. *)
Fixpoint unique_acc (acc : list value) (s : list value) : list value :=
  match s with
  | [] => acc
  | v :: t =>
      if existsb (value_same v) acc then unique_acc acc t
      else unique_acc (acc ++ [v]) t
  end.

Definition unique (s : list value) : list value := unique_acc [] s.

(** The [dcc.Dropdown] of the layout; an option is its label and value. *)
Record Dropdown := mkDropdown {
  dropdown_id : string;
  options : list (value * value);
  dropdown_value : string;
  clearable : bool
}.

(** The dropdown as the layout builds it from the Dataset. *)
Definition program_filter : M Dropdown :=
  g ← get_df_global;
  p ← getitem g "Program_of_Study";
  mret (mkDropdown "program-filter" ((λ i, (i, i)) <$> unique p)
                   "Data science" false).

(** The module body up to the layout: the Dataset, then the dropdown. *)
Definition startup : M Dropdown :=
  _ ← module_init;
  program_filter.

(** The five categorical cells of a row. *)
Definition key_cells (r : row) : value * value * value * value * value :=
  (cell "Program_of_Study" r, cell "Average_Daily_SM_Usage" r,
   cell "Daily_Study_Work_Hours" r, cell "Distraction_Frequency" r,
   cell "Productivity_Impact" r).

(** The five categorical cells hold strings of their domains. *)
Definition surveyed (r : row) : Prop :=
  ∃ p u st d i,
    key_cells r = (VStr p, VStr u, VStr st, VStr d, VStr i) ∧
    p ∈ programs ∧ u ∈ usage_buckets ∧ st ∈ study_buckets ∧
    d ∈ distraction_levels ∧ i ∈ impact_levels.

(** The place of a level in its ordered domain. *)
Fixpoint index_of (x : string) (l : list string) : nat :=
  match l with
  | [] => O
  | y :: t => if String.eqb x y then O else S (index_of x t)
  end.

(** The rows whose program cell equals the selected value. *)
Definition hits (sel : option string) (rs : list row) : list row :=
  List.filter (λ r, cell_eq sel (cell "Program_of_Study" r)) rs.

(** A tape that is constant, whatever the reseed. *)
Definition entropy_const (q : Q) : nat → nat → Q := λ _ _, q.

(** What a tally of string cells keeps true, one cell at a time. *)
Definition tallied (seen : list value) (acc : list (value * nat)) : Prop :=
  sum_list (snd <$> acc) = length seen ∧
  Forall (λ kc, 1 <= snd kc)%nat acc ∧
  NoDup (fst <$> acc) ∧
  (∀ v, v ∈ fst <$> acc ↔ v ∈ seen).

(** Bars from the most frequent to the least. *)
Definition descending (l : list (value * nat)) : Prop :=
  StronglySorted (λ a b, snd b <= snd a)%nat l.


(** A world whose tape starts with the listed variates. *)
Definition world_on (t : list Q) : World :=
  mkWorld [] 0 (mkRandomState (λ i, nth i t 0%Q) 0) (λ _ _, 0%Q) 0.

(** The cell of a column in the row a run returns. *)
Definition returned_cell (col : string) (res : result (row * World)) : option value :=
  match res with
  | Ok (r, _) => r !! col
  | Raise _ => None
  end.

(** * Properties *)

(** ** Running the monad *)

Lemma bind_run {A B : Type} (m : M A) (f : A → M B) (w w' : World) (a : A) :
  m w = Ok (a, w') → (m ≫= f) w = f a w'.
Proof. intros H. unfold mbind, M_bind. by rewrite H. Qed.

Lemma ret_run {A : Type} (a : A) (w : World) : (mret a : M A) w = Ok (a, w).
Proof. reflexivity. Qed.

(** ** The generator's draws *)

Lemma Qlt_bool_true (x y : Q) : Qlt_bool x y = true ↔ (x < y)%Q.
Proof.
  unfold Qlt_bool. rewrite negb_true_iff. split.
  - intros H. apply Qnot_le_lt. intros Hle. apply Qle_bool_iff in Hle. congruence.
  - intros H. destruct (Qle_bool y x) eqn:E; [|done].
    apply Qle_bool_iff in E. exfalso. by apply (Qlt_not_le x y).
Qed.

Lemma Qlt_bool_false (x y : Q) : Qlt_bool x y = false ↔ (y <= x)%Q.
Proof.
  unfold Qlt_bool. rewrite negb_false_iff. apply Qle_bool_iff.
Qed.

Lemma frac_range (q : Q) : (0 <= frac q < 1)%Q.
Proof.
  unfold frac, Qle, Qlt. simpl.
  pose proof (Z.mod_pos_bound (Qnum q) (Z.pos (Qden q)) eq_refl). lia.
Qed.

Lemma random_sample_run (w : World) :
  random_sample w = Ok (frac (peek w), advance w).
Proof. reflexivity. Qed.

Lemma randint_run (n : nat) (w : World) :
  (0 < n)%nat → ∃ i, (i < n)%nat ∧ randint n w = Ok (i, advance w).
Proof.
  intros Hn. eexists. split; [|reflexivity].
  destruct (frac_range (peek w)) as [H0 H1].
  set (u := frac (peek w)) in *.
  set (x := (u * inject_Z (Z.of_nat n))%Q).
  assert (Hn' : (0 < inject_Z (Z.of_nat n))%Q).
  { change 0%Q with (inject_Z 0). rewrite <- Zlt_Qlt. lia. }
  assert (Hx0 : (0 <= x)%Q) by (unfold x; nra).
  assert (Hx1 : (x < inject_Z (Z.of_nat n))%Q) by (unfold x; nra).
  pose proof (Qfloor_resp_le _ _ Hx0) as Hf0. change (Qfloor 0) with 0%Z in Hf0.
  pose proof (Qfloor_le x) as Hf1.
  assert (Hlt : (Qfloor x < Z.of_nat n)%Z).
  { rewrite Zlt_Qlt. eapply Qle_lt_trans; eauto. }
  lia.
Qed.

Lemma choice_run (a : list string) (w : World) :
  a ≠ [] → ∃ x, x ∈ a ∧ choice a w = Ok (x, advance w).
Proof.
  intros Ha.
  destruct (randint_run (length a) w) as (i & Hi & Hrun).
  { destruct a; [done | simpl; lia]. }
  destruct (lookup_lt_is_Some_2 a i Hi) as [x Hx].
  exists x. split; [by eapply list_elem_of_lookup_2 |].
  unfold choice. destruct a as [|y a']; [done |].
  rewrite (bind_run _ _ _ _ _ Hrun). by rewrite Hx.
Qed.

Lemma searchsorted_right_lt (cdf : list Q) (u c : Q) :
  last cdf = Some c → (u < c)%Q →
  (searchsorted_right cdf u < length cdf)%nat.
Proof.
  induction cdf as [|c1 [|c2 t] IH]; intros Hlast Hu; simpl in *.
  - done.
  - injection Hlast as ->.
    destruct (Qle_bool c u) eqn:E; [|lia].
    apply Qle_bool_iff in E. exfalso. by apply (Qlt_not_le u c).
  - destruct (Qle_bool c1 u); [|lia].
    specialize (IH Hlast Hu). simpl in IH. lia.
Qed.

Lemma last_cumsum (p : list Q) (acc : Q) :
  p ≠ [] → ∃ c, last (cumsum acc p) = Some c ∧ (c == acc + Qsum p)%Q.
Proof.
  revert acc. induction p as [|x [|y t] IH]; intros acc Hp; [done | |].
  - simpl. eexists. split; [reflexivity |]. unfold Qsum. simpl. lra.
  - destruct (IH (acc + x)%Q) as (c & Hc & Hq); [done |].
    exists c. split; [exact Hc |].
    rewrite Hq. unfold Qsum. simpl. lra.
Qed.

Lemma choice_p_run (a : list string) (p : list Q) (w : World) :
  valid_p a p = true → ∃ x, x ∈ a ∧ choice_p a p w = Ok (x, advance w).
Proof.
  intros Hv. unfold choice_p. rewrite Hv.
  unfold valid_p in Hv. apply andb_prop in Hv as [Hv Hsum].
  apply andb_prop in Hv as [Hlen _].
  apply Nat.eqb_eq in Hlen. apply Qeq_bool_iff in Hsum.
  assert (Hp : p ≠ []).
  { intros ->. unfold Qsum in Hsum. simpl in Hsum. lra. }
  destruct (last_cumsum p 0 Hp) as (c & Hc & Hq).
  destruct (frac_range (peek w)) as [_ H1].
  assert (Hi : (searchsorted_right (cumsum 0 p) (frac (peek w)) < length a)%nat).
  { rewrite Hlen.
    replace (length p) with (length (cumsum 0 p)).
    - eapply searchsorted_right_lt; [exact Hc |]. rewrite Hq, Hsum. lra.
    - clear. generalize 0%Q. induction p; intros; simpl; [done | by rewrite IHp]. }
  destruct (lookup_lt_is_Some_2 _ _ Hi) as [x Hx].
  exists x. split; [by eapply list_elem_of_lookup_2 |].
  rewrite (bind_run _ _ _ _ _ (random_sample_run w)). by rewrite Hx.
Qed.

(** ** One generated row *)

Lemma three_draws (a1 a2 a3 : list string) (p1 p2 p3 : list Q) (w : World) :
  valid_p a1 p1 = true → valid_p a2 p2 = true → valid_p a3 p3 = true →
  ∃ x1 x2 x3, x1 ∈ a1 ∧ x2 ∈ a2 ∧ x3 ∈ a3 ∧
    (x1 ← choice_p a1 p1; x2 ← choice_p a2 p2; x3 ← choice_p a3 p3;
     mret (x1, x2, x3)) w = Ok ((x1, x2, x3), advance3 w).
Proof.
  intros V1 V2 V3.
  destruct (choice_p_run a1 p1 w V1) as (x1 & Hx1 & R1).
  destruct (choice_p_run a2 p2 (advance w) V2) as (x2 & Hx2 & R2).
  destruct (choice_p_run a3 p3 (advance (advance w)) V3) as (x3 & Hx3 & R3).
  exists x1, x2, x3. repeat split; try done.
  rewrite (bind_run _ _ _ _ _ R1), (bind_run _ _ _ _ _ R2), (bind_run _ _ _ _ _ R3).
  reflexivity.
Qed.

Lemma survey_row_run (program : string) (s : Q) (w : World) :
  ∃ usage distraction impact study,
    survey_row program s w
      = Ok (record program usage study distraction impact, advance3 w) ∧
    bucket s usage ∧ regime s distraction impact study.
Proof.
  unfold survey_row.
  set (usage := if Qlt_bool s 2 then _ else _).
  assert (Hb : bucket s usage).
  { unfold bucket, usage.
    destruct (Qlt_bool s 2) eqn:E2; [apply Qlt_bool_true in E2 | apply Qlt_bool_false in E2];
    (destruct (Qlt_bool s 4) eqn:E4; [apply Qlt_bool_true in E4 | apply Qlt_bool_false in E4]);
    (destruct (Qlt_bool s 6) eqn:E6; [apply Qlt_bool_true in E6 | apply Qlt_bool_false in E6]);
    (destruct (Qlt_bool s 8) eqn:E8; [apply Qlt_bool_true in E8 | apply Qlt_bool_false in E8]);
    repeat split; intros; try reflexivity; exfalso; lra. }
  exists usage. clearbody usage.
  match goal with
  | |- ∃ d i st, (?branch ≫= ?k) w = _ ∧ _ =>
      assert (Hrun : ∃ d i st, branch w = Ok ((d, i, st), advance3 w) ∧ regime s d i st)
  end.
  { unfold regime, heavy_values, light_values, average_values.
    destruct (Qlt_bool 6 s) eqn:E6;
      [apply Qlt_bool_true in E6
      | apply Qlt_bool_false in E6; destruct (Qlt_bool s 3) eqn:E3;
        [apply Qlt_bool_true in E3 | apply Qlt_bool_false in E3]];
      match goal with
      | |- ∃ d i st, (choice_p ?a1 ?p1 ≫= λ _, choice_p ?a2 ?p2 ≫= λ _,
                        choice_p ?a3 ?p3 ≫= _) w = _ ∧ _ =>
          destruct (three_draws a1 a2 a3 p1 p2 p3 w eq_refl eq_refl eq_refl)
            as (x1 & x2 & x3 & Hx1 & Hx2 & Hx3 & Hrun)
      end;
      exists x1, x2, x3; (split; [exact Hrun |]);
      repeat split; intros; try done; exfalso; lra. }
  destruct Hrun as (d & i & st & Hrun & Hreg).
  exists d, i, st. rewrite (bind_run _ _ _ _ _ Hrun). done.
Qed.

(** ** The loop and the returned frame *)

Lemma advance_by_add (a b : nat) (w : World) :
  advance_by a (advance_by b w) = advance_by (a + b) w.
Proof.
  unfold advance_by, set_np_random. simpl. do 2 f_equal. lia.
Qed.

Lemma advance_by_0 (w : World) : advance_by 0 w = w.
Proof. by destruct w as [h g [t c] e k]. Qed.

Lemma survey_record_run (w : World) :
  ∃ s r, survey_record w = Ok (r, advance_by 5 w) ∧ pass w s r.
Proof.
  destruct (choice_run programs w) as (program & Hp & Hc); [done |].
  set (s := (5 + 2.5 * peek (advance w))%Q).
  destruct (survey_row_run program s (advance (advance w)))
    as (usage & d & i & st & Hrow & _).
  exists s, (record program usage st d i). split.
  - unfold survey_record. rewrite (bind_run _ _ _ _ _ Hc).
    unfold normal at 1.
    erewrite bind_run; [| erewrite bind_run; [| reflexivity]; reflexivity].
    exact Hrow.
  - exists program. split; [done |]. split; [exact Hc |]. split; [reflexivity |].
    exact Hrow.
Qed.

Lemma generate_loop_run (k : nat) (new_data : list row) (w : World) :
  ∃ new,
    generate_loop k new_data w = Ok (new_data ++ new, advance_by (5 * k) w) ∧
    length new = k ∧
    ∀ i r, new !! i = Some r → ∃ s, pass (advance_by (5 * i) w) s r.
Proof.
  revert new_data w. induction k as [|k IH]; intros new_data w.
  - exists []. rewrite app_nil_r, advance_by_0. by repeat split.
  - destruct (survey_record_run w) as (s & r & Hrun & Hpass).
    destruct (IH (new_data ++ [r]) (advance_by 5 w)) as (new & Hloop & Hlen & Hall).
    exists (r :: new). split; [| split].
    + simpl generate_loop. rewrite (bind_run _ _ _ _ _ Hrun), Hloop.
      rewrite <- app_assoc, advance_by_add. do 3 f_equal. lia.
    + simpl. by rewrite Hlen.
    + intros [|i] r' Hi.
      * injection Hi as <-. exists s. by rewrite advance_by_0.
      * destruct (Hall i r' Hi) as (s' & Hs'). exists s'.
        rewrite advance_by_add in Hs'.
        by replace (5 * S i)%nat with (5 * i + 5)%nat by lia.
Qed.

Lemma record_dom (program usage study distraction impact : string) :
  dom (record program usage study distraction impact) = survey_columns.
Proof.
  unfold record, survey_columns. rewrite !dom_insert_L, dom_empty_L. set_solver.
Qed.

Lemma pass_record (w : World) (s : Q) (r : row) :
  pass w s r →
  ∃ program usage distraction impact study,
    r = record program usage study distraction impact ∧
    program ∈ programs ∧ bucket s usage ∧ regime s distraction impact study.
Proof.
  intros (program & Hp & _ & _ & Hrow).
  destruct (survey_row_run program s (advance_by 2 w))
    as (usage & d & i & st & Hrun & Hb & Hr).
  rewrite Hrun in Hrow. injection Hrow as <-.
  by exists program, usage, d, i, st.
Qed.

Lemma fill_id (cols : gset string) (r : row) : cols ⊆ dom r → fill cols r = r.
Proof.
  intros Hsub. apply map_eq. intros k. unfold fill.
  rewrite lookup_union. destruct (r !! k) as [v|] eqn:E.
  - by destruct (gset_to_gmap NaN cols !! k).
  - rewrite (proj2 (lookup_gset_to_gmap_None NaN cols k)); [done |].
    intros Hk. apply Hsub in Hk. apply elem_of_dom in Hk. rewrite E in Hk.
    by destruct Hk.
Qed.

Lemma fill_all_id (cols : gset string) (rs : list row) :
  Forall (λ r, cols ⊆ dom r) rs → fill cols <$> rs = rs.
Proof.
  induction 1 as [|r rs Hr _ IH]; [done |].
  by rewrite fmap_cons, fill_id, IH.
Qed.

Lemma frame_of_records_same (rs : list row) :
  rs ≠ [] → Forall (λ r, dom r = survey_columns) rs →
  frame_of_records rs = mkDataFrame survey_columns rs.
Proof.
  intros Hne Hall. unfold frame_of_records.
  assert (Hk : all_keys rs = survey_columns).
  { destruct rs as [|r0 rs]; [done |]. clear Hne.
    revert r0 Hall. induction rs as [|r1 rs IH]; intros r0 Hall.
    - apply Forall_cons in Hall as [H0 _]. simpl. rewrite H0. set_solver.
    - apply Forall_cons in Hall as [H0 Hall]. specialize (IH r1 Hall).
      change (all_keys (r0 :: r1 :: rs)) with (dom r0 ∪ all_keys (r1 :: rs)).
      rewrite IH, H0. set_solver. }
  rewrite Hk. f_equal. apply fill_all_id.
  eapply Forall_impl; [exact Hall |]. intros r Hr. simpl in Hr. by rewrite Hr.
Qed.

Lemma generate_survey_data_run (n : Z) (w : World) :
  ∃ new,
    generate_survey_data n w
      = Ok (length (heap w),
            set_heap (heap w ++ [frame_of_records new])
                     (advance_by (5 * Z.to_nat n) (seeded w))) ∧
    length new = Z.to_nat n ∧
    ∀ i r, new !! i = Some r → ∃ s, pass (advance_by (5 * i) (seeded w)) s r.
Proof.
  destruct (generate_loop_run (Z.to_nat n) [] (seeded w)) as (new & Hloop & Hlen & Hall).
  exists new. split; [| by split].
  unfold generate_survey_data.
  erewrite bind_run; [| reflexivity].
  change (mkWorld _ _ _ _ _) with (seeded w).
  rewrite (bind_run _ _ _ _ _ Hloop). reflexivity.
Qed.

Lemma generated_rows (new : list row) (w : World) :
  (∀ i r, new !! i = Some r → ∃ s, pass (advance_by (5 * i) w) s r) →
  frame_of_records new
    = mkDataFrame (if new is [] then ∅ else survey_columns) new.
Proof.
  intros Hall. destruct new as [|r0 new]; [done |].
  apply frame_of_records_same; [done |].
  apply Forall_lookup_2. intros i r Hi.
  destruct (Hall i r Hi) as (s & Hs).
  destruct (pass_record _ _ _ Hs) as (p & u & d & im & st & -> & _).
  apply record_dom.
Qed.

(** ** Primitive steps *)

Lemma load_run (r : ref) (w : World) (d : DataFrame) :
  heap w !! r = Some d → load r w = Ok (d, w).
Proof. intros H. unfold load. by rewrite H. Qed.

Lemma store_run (r : ref) (d d0 : DataFrame) (w : World) :
  heap w !! r = Some d0 →
  store r d w = Ok ((), set_heap (<[r := d]> (heap w)) w).
Proof. intros H. unfold store. by rewrite H. Qed.

Lemma getitem_run (r : ref) (col : string) (w : World) (d : DataFrame) :
  heap w !! r = Some d → col ∈ columns d →
  getitem r col w = Ok (cell col <$> rows d, w).
Proof.
  intros H Hc. unfold getitem. rewrite (bind_run _ _ _ _ _ (load_run _ _ _ H)).
  by rewrite decide_True.
Qed.

Lemma setitem_run (r : ref) (col : string) (s : list value) (w : World) (d : DataFrame) :
  heap w !! r = Some d →
  setitem r col s w
    = Ok ((), set_heap (<[r := mkDataFrame (columns d ∪ {[col]})
                                          (set_column col (rows d) s)]> (heap w)) w).
Proof.
  intros H. unfold setitem. rewrite (bind_run _ _ _ _ _ (load_run _ _ _ H)).
  by eapply store_run.
Qed.

Lemma len_run (r : ref) (w : World) (d : DataFrame) :
  heap w !! r = Some d → len r w = Ok (length (rows d), w).
Proof.
  intros H. unfold len. by rewrite (bind_run _ _ _ _ _ (load_run _ _ _ H)).
Qed.

Lemma uniform_array_run (low high : Q) (k : nat) (w : World) :
  uniform_array low high k w = Ok (draws low high k w, advance_by k w).
Proof.
  revert w. induction k as [|k IH]; intros w.
  - simpl. by rewrite advance_by_0.
  - simpl uniform_array.
    erewrite bind_run; [| reflexivity].
    erewrite bind_run; [| apply IH].
    change (advance w) with (advance_by 1 w). rewrite advance_by_add.
    replace (k + 1)%nat with (S k) by lia. reflexivity.
Qed.

Lemma draws_ext (low high : Q) (k : nat) (w w' : World) :
  np_random w = np_random w' → draws low high k w = draws low high k w'.
Proof.
  revert w w'. induction k as [|k IH]; intros w w' H; [done |].
  simpl. unfold peek. rewrite H. f_equal. apply IH. simpl. by rewrite H.
Qed.

Lemma length_draws (low high : Q) (k : nat) (w : World) :
  length (draws low high k w) = k.
Proof. revert w. induction k; intros; simpl; [done | by rewrite IHk]. Qed.

Lemma series_add_run (m : gmap string Q) (s : list value) (xs : list Q) (w : World) :
  length s = length xs →
  series_add (series_map m s) xs w
    = Ok (zip_with add_jitter (series_map m s) xs, w).
Proof.
  revert xs. induction s as [|v s IH]; intros [|x xs] Hlen; try done.
  injection Hlen as Hlen. unfold series_map in *. rewrite fmap_cons.
  simpl series_add.
  assert (Hv : ∃ v', add_cell (match v with
                      | VStr k => match m !! k with Some q => VNum q | None => NaN end
                      | _ => NaN end) x = Ok v' ∧
                     v' = add_jitter (match v with
                      | VStr k => match m !! k with Some q => VNum q | None => NaN end
                      | _ => NaN end) x).
  { destruct v as [k | q |]; simpl; [destruct (m !! k) | |]; simpl; eauto. }
  destruct Hv as (v' & -> & ->).
  by rewrite (bind_run _ _ _ _ _ (IH xs Hlen)).
Qed.

Lemma length_series_map (m : gmap string Q) (s : list value) :
  length (series_map m s) = length s.
Proof. unfold series_map. by rewrite length_fmap. Qed.

Lemma length_set_column (col : string) (rs : list row) (s : list value) :
  length (set_column col rs s) = length rs.
Proof.
  revert s. induction rs as [|r rs IH]; intros [|v s]; simpl; try done.
  by rewrite IH.
Qed.

Lemma cell_set_column_ne (c col : string) (rs : list row) (s : list value) :
  c ≠ col → cell c <$> set_column col rs s = cell c <$> rs.
Proof.
  intros Hne. revert s. induction rs as [|r rs IH]; intros [|v s]; try done.
  cbn [set_column]. rewrite !fmap_cons, IH. f_equal. unfold cell. by rewrite lookup_insert_ne.
Qed.

Lemma cell_set_column_eq (col : string) (rs : list row) (s : list value) :
  length s = length rs → cell col <$> set_column col rs s = s.
Proof.
  revert s. induction rs as [|r rs IH]; intros [|v s] Hlen; try done.
  injection Hlen as Hlen. cbn [set_column]. rewrite fmap_cons, IH by done.
  f_equal. unfold cell. by rewrite lookup_insert_eq.
Qed.

(** ** The callback after the filter *)

Lemma update_dashboard_render (n : Z) (selected_program : option string) :
  update_dashboard n selected_program =
    (new_entry ← generate_survey_data 1;
     g ← get_df_global;
     g' ← pd_concat g new_entry;
     _ ← assign_df_global g';
     g ← get_df_global;
     p ← getitem g "Program_of_Study";
     s ← getitem_mask g (cell_eq selected_program <$> p);
     filtered_df ← copy s;
     e ← empty filtered_df;
     filtered_df ← (if e : bool then get_df_global else mret filtered_df);
     render selected_program filtered_df).
Proof. reflexivity. Qed.

Lemma length_jittered (m : gmap string Q) (col : string) (rs : list row) (js : list Q) :
  length js = length rs → length (jittered m col rs js) = length rs.
Proof.
  intros H. unfold jittered.
  rewrite length_zip_with, length_series_map, length_fmap. lia.
Qed.

Lemma px_scatter_run (r : ref) (x y color title : string) (w : World) (d : DataFrame) :
  heap w !! r = Some d → x ∈ columns d → y ∈ columns d → color ∈ columns d →
  px_scatter r x y color title w
    = Ok (mkScatter title
            (zip3 (cell x <$> rows d) (cell y <$> rows d) (cell color <$> rows d)), w).
Proof.
  intros H Hx Hy Hc. unfold px_scatter.
  rewrite (bind_run _ _ _ _ _ (getitem_run r x w d H Hx)).
  rewrite (bind_run _ _ _ _ _ (getitem_run r y w d H Hy)).
  by rewrite (bind_run _ _ _ _ _ (getitem_run r color w d H Hc)).
Qed.

Lemma px_pie_run (r : ref) (names title : string) (w : World) (d : DataFrame) :
  heap w !! r = Some d → names ∈ columns d →
  px_pie r names title w = Ok (mkPie title (cell names <$> rows d), w).
Proof.
  intros H Hn. unfold px_pie.
  by rewrite (bind_run _ _ _ _ _ (getitem_run r names w d H Hn)).
Qed.

Lemma render_run (sel : option string) (f : ref) (w : World) (f0 g0 : DataFrame) :
  heap w !! f = Some f0 → heap w !! df_global w = Some g0 →
  survey_columns ⊆ columns f0 →
  let k := length (rows f0) in
  let jx := draws (-0.3) 0.3 k w in
  let jy := draws (-0.3) 0.3 k (advance_by k w) in
  render sel f w
    = Ok (figures sel (rows f0) jx jy (length (rows g0)),
          set_heap (<[f := projected f0 jx jy]> (heap w)) (advance_by (k + k) w)).
Proof.
  intros Hf Hg Hcols k jx jy.
  assert (Hlt : (f < length (heap w))%nat) by (by eapply lookup_lt_Some).
  assert (Hin : ∀ c, c ∈ survey_columns → c ∈ columns f0) by (intros c; apply Hcols).
  unfold render.
  (* SM_Numeric = usage.map(sm_map) *)
  rewrite (bind_run _ _ _ _ _ (getitem_run f "Average_Daily_SM_Usage" w f0 Hf
                             ltac:(by apply Hin))).
  set (m1 := series_map sm_map _).
  rewrite (bind_run _ _ _ _ _ (setitem_run f _ _ w f0 Hf)).
  set (f1 := mkDataFrame _ _). set (w1 := set_heap _ w).
  assert (Hf1 : heap w1 !! f = Some f1) by (by apply list_lookup_insert_eq).
  (* Study_Numeric = study.map(study_map) *)
  rewrite (bind_run _ _ _ _ _
             (getitem_run f "Daily_Study_Work_Hours" w1 f1 Hf1
                          ltac:(apply elem_of_union_l; by apply Hin))).
  replace (cell "Daily_Study_Work_Hours" <$> rows f1)
    with (cell "Daily_Study_Work_Hours" <$> rows f0)
    by (symmetry; by apply cell_set_column_ne).
  set (m2 := series_map study_map _).
  rewrite (bind_run _ _ _ _ _ (setitem_run f _ _ w1 f1 Hf1)).
  set (f2 := mkDataFrame _ _). set (w2 := set_heap _ w1).
  assert (Hf2 : heap w2 !! f = Some f2).
  { apply list_lookup_insert_eq. subst w1. simpl. by rewrite length_insert. }
  (* SM_Numeric += uniform *)
  rewrite (bind_run _ _ _ _ _
             (getitem_run f "SM_Numeric" w2 f2 Hf2 ltac:(set_solver))).
  replace (cell "SM_Numeric" <$> rows f2) with m1.
  2:{ subst f2 f1. simpl. rewrite cell_set_column_ne by done.
      rewrite cell_set_column_eq; [done |].
      subst m1. by rewrite length_series_map, length_fmap. }
  rewrite (bind_run _ _ _ _ _ (len_run f w2 f2 Hf2)).
  replace (length (rows f2)) with k
    by (subst f2 f1; simpl; by rewrite !length_set_column).
  rewrite (bind_run _ _ _ _ _ (uniform_array_run _ _ k w2)).
  replace (draws (-0.3) 0.3 k w2) with jx by (by apply draws_ext).
  subst m1.
  assert (Hjx : length (cell "Average_Daily_SM_Usage" <$> rows f0) = length jx)
    by (subst jx; by rewrite length_draws, length_fmap).
  rewrite (bind_run _ _ _ _ _ (series_add_run _ _ jx _ Hjx)).
  fold (jittered sm_map "Average_Daily_SM_Usage" (rows f0) jx).
  set (xs := jittered _ _ _ jx).
  set (w3 := advance_by k w2).
  assert (Hf2' : heap w3 !! f = Some f2) by exact Hf2.
  rewrite (bind_run _ _ _ _ _ (setitem_run f _ _ w3 f2 Hf2')).
  set (f3 := mkDataFrame _ _). set (w4 := set_heap _ w3).
  assert (Hf3 : heap w4 !! f = Some f3).
  { apply list_lookup_insert_eq. subst w3 w2 w1. simpl. by rewrite !length_insert. }
  (* Study_Numeric += uniform *)
  rewrite (bind_run _ _ _ _ _
             (getitem_run f "Study_Numeric" w4 f3 Hf3 ltac:(set_solver))).
  replace (cell "Study_Numeric" <$> rows f3) with m2.
  2:{ subst f3 f2 f1. simpl. rewrite cell_set_column_ne by done.
      rewrite cell_set_column_eq; [done |].
      subst m2. by rewrite length_series_map, length_fmap, length_set_column. }
  rewrite (bind_run _ _ _ _ _ (len_run f w4 f3 Hf3)).
  replace (length (rows f3)) with k
    by (subst f3 f2 f1; simpl; by rewrite !length_set_column).
  rewrite (bind_run _ _ _ _ _ (uniform_array_run _ _ k w4)).
  replace (draws (-0.3) 0.3 k w4) with jy by (by apply draws_ext).
  subst m2.
  assert (Hjy : length (cell "Daily_Study_Work_Hours" <$> rows f0) = length jy)
    by (subst jy; by rewrite length_draws, length_fmap).
  rewrite (bind_run _ _ _ _ _ (series_add_run _ _ jy _ Hjy)).
  fold (jittered study_map "Daily_Study_Work_Hours" (rows f0) jy).
  set (ys := jittered _ _ _ jy).
  set (w5 := advance_by k w4).
  assert (Hf3' : heap w5 !! f = Some f3) by exact Hf3.
  rewrite (bind_run _ _ _ _ _ (setitem_run f _ _ w5 f3 Hf3')).
  set (f4 := mkDataFrame _ _). set (w6 := set_heap _ w5).
  assert (Hf4 : heap w6 !! f = Some f4).
  { apply list_lookup_insert_eq. subst w5 w4 w3 w2 w1. simpl.
    by rewrite !length_insert. }
  assert (Hlx : length xs = k).
  { subst xs. apply length_jittered. subst jx. by rewrite length_draws. }
  assert (Hly : length ys = k).
  { subst ys. apply length_jittered. subst jy. by rewrite length_draws. }
  (* the figures *)
  assert (Hc4 : ∀ c, c ≠ "SM_Numeric" → c ≠ "Study_Numeric" →
                     cell c <$> rows f4 = cell c <$> rows f0).
  { intros c H1 H2. subst f4 f3 f2 f1. simpl. by rewrite !cell_set_column_ne. }
  assert (Hx4 : cell "SM_Numeric" <$> rows f4 = xs).
  { subst f4. simpl. rewrite cell_set_column_ne by done. subst f3. simpl.
    apply cell_set_column_eq. rewrite Hlx. subst f2 f1. simpl.
    by rewrite !length_set_column. }
  assert (Hy4 : cell "Study_Numeric" <$> rows f4 = ys).
  { subst f4. simpl. apply cell_set_column_eq. rewrite Hly. subst f3 f2 f1. simpl.
    by rewrite !length_set_column. }
  assert (Hin4 : ∀ c, c ∈ survey_columns → c ∈ columns f4).
  { intros c Hc. subst f4 f3 f2 f1. simpl. apply Hin in Hc. set_solver. }
  rewrite (bind_run _ _ _ _ _
             (px_scatter_run f "SM_Numeric" "Study_Numeric" "Distraction_Frequency"
                _ w6 f4 Hf4 ltac:(set_solver) ltac:(set_solver)
                ltac:(by apply Hin4))).
  rewrite (bind_run _ _ _ _ _
             (getitem_run f "Distraction_Frequency" w6 f4 Hf4 ltac:(by apply Hin4))).
  rewrite (bind_run _ _ _ _ _
             (px_pie_run f "Productivity_Impact" _ w6 f4 Hf4 ltac:(by apply Hin4))).
  rewrite Hx4, Hy4, !Hc4 by done.
  erewrite bind_run; [| reflexivity].
  assert (Hg6 : ∃ g6, heap w6 !! df_global w6 = Some g6 ∧
                      length (rows g6) = length (rows g0)).
  { destruct (decide (df_global w = f)) as [Heq | Hne].
    - exists f4. split; [by rewrite <- Heq in Hf4 |].
      rewrite Heq, Hf in Hg. injection Hg as <-.
      subst f4 f3 f2 f1. simpl. by rewrite !length_set_column.
    - exists g0. split; [| done]. subst w6 w5 w4 w3 w2 w1. simpl.
      by rewrite !list_lookup_insert_ne. }
  destruct Hg6 as (g6 & Hg6 & Hlen6).
  rewrite (bind_run _ _ _ _ _ (len_run _ w6 g6 Hg6)).
  rewrite Hlen6. unfold mret, M_ret, figures, px_bar. do 2 f_equal.
  subst w6 w5 w4 w3 w2 w1. unfold set_heap, advance_by, set_np_random. simpl.
  rewrite !list_insert_insert_eq. f_equal. f_equal. lia.
Qed.

(** ** The whole callback *)

Lemma survey_columns_nonempty (cols : gset string) :
  survey_columns ⊆ cols → cols ≠ ∅.
Proof.
  intros Hsub Hempty.
  assert (H : "Program_of_Study" ∈ cols) by (apply Hsub; by vm_compute).
  rewrite Hempty in H. by apply not_elem_of_empty in H.
Qed.

Lemma update_dashboard_run (n : Z) (sel : option string) (w : World) (d : DataFrame) :
  heap w !! df_global w = Some d →
  ∃ s r0 w',
    pass (seeded w) s r0 ∧
    let d1 := appended d r0 in
    let f0 := retained sel d1 in
    let k := length (rows f0) in
    let jx := draws (-0.3) 0.3 k (advance_by 5 (seeded w)) in
    let jy := draws (-0.3) 0.3 k (advance_by (k + 5) (seeded w)) in
    update_dashboard n sel w
      = Ok (figures sel (rows f0) jx jy (length (rows d1)), w') ∧
    heap w' !! df_global w'
      = Some (if matching sel d1 is [] then projected d1 jx jy else d1).
Proof.
  intros Hd.
  destruct (generate_survey_data_run 1 w) as (new & Hgen & Hlen & Hall).
  destruct new as [|r0 [|? ?]]; try done.
  destruct (Hall 0%nat r0 eq_refl) as (s & Hpass).
  rewrite advance_by_0 in Hpass.
  rewrite (generated_rows _ _ Hall) in Hgen.
  change (5 * Z.to_nat 1)%nat with 5%nat in Hgen.
  exists s, r0.
  set (d1 := appended d r0). set (f0 := retained sel d1).
  set (k := length (rows f0)).
  set (L := length (heap w)) in *.
  assert (HdL : (df_global w < L)%nat) by (by eapply lookup_lt_Some).
  rewrite update_dashboard_render.
  rewrite (bind_run _ _ _ _ _ Hgen).
  set (w1 := set_heap _ _).
  erewrite bind_run; [| reflexivity].
  (* df_global = pd.concat([df_global, new_entry]) *)
  assert (Hc : pd_concat (df_global w1) L w1
               = Ok (S L, set_heap (heap w1 ++ [d1]) w1)).
  { unfold pd_concat.
    erewrite bind_run; [| apply (load_run _ _ d); simpl; by rewrite lookup_app_l].
    erewrite bind_run; [| apply load_run; simpl; by apply list_lookup_middle].
    unfold alloc. simpl. rewrite length_app. simpl. do 2 f_equal. lia. }
  rewrite (bind_run _ _ _ _ _ Hc). clear Hc.
  erewrite bind_run; [| reflexivity].
  erewrite bind_run; [| reflexivity].
  set (w2 := set_df_global _ _).
  assert (H2 : heap w2 = heap w ++ [mkDataFrame survey_columns [r0]; d1]).
  { simpl. by rewrite <- app_assoc. }
  assert (Hl2 : length (heap w2) = S (S L)).
  { rewrite H2, length_app. simpl. unfold L. lia. }
  assert (Hg2 : heap w2 !! S L = Some d1).
  { rewrite H2. rewrite lookup_app_r by (unfold L; lia).
    by replace (S L - length (heap w))%nat with 1%nat by (unfold L; lia). }
  assert (Hcols : survey_columns ⊆ columns d1).
  { intros c Hc. by apply elem_of_union_r. }
  (* filtered_df = df_global[mask].copy() *)
  rewrite (bind_run _ _ _ _ _
             (getitem_run (S L) "Program_of_Study" w2 d1 Hg2
                ltac:(apply Hcols; by vm_compute))).
  fold (matching sel d1).
  set (kept := mkDataFrame (columns d1) (matching sel d1)).
  assert (Hm : getitem_mask (df_global w2) (cell_eq sel <$> (cell "Program_of_Study" <$> rows d1)) w2
               = Ok (S (S L), set_heap (heap w2 ++ [kept]) w2)).
  { unfold getitem_mask.
    erewrite bind_run; [| apply (load_run _ _ d1); exact Hg2].
    unfold alloc. by rewrite Hl2. }
  rewrite (bind_run _ _ _ _ _ Hm). clear Hm.
  set (w3 := set_heap _ w2).
  assert (H3 : heap w3 = heap w ++ [mkDataFrame survey_columns [r0]; d1; kept]).
  { change (heap w3) with (heap w2 ++ [kept]). by rewrite H2, <- app_assoc. }
  assert (Hl3 : length (heap w3) = S (S (S L))).
  { rewrite H3, length_app. simpl. unfold L. lia. }
  assert (Hk3 : heap w3 !! S (S L) = Some kept).
  { rewrite H3, lookup_app_r by (unfold L; lia).
    by replace (S (S L) - length (heap w))%nat with 2%nat by (unfold L; lia). }
  assert (Hcp : copy (S (S L)) w3 = Ok (S (S (S L)), set_heap (heap w3 ++ [kept]) w3)).
  { unfold copy. erewrite bind_run; [| apply (load_run _ _ kept); exact Hk3].
    unfold alloc. by rewrite Hl3. }
  rewrite (bind_run _ _ _ _ _ Hcp). clear Hcp.
  set (w4 := set_heap _ w3).
  assert (H4 : heap w4 = heap w ++ [mkDataFrame survey_columns [r0]; d1; kept; kept]).
  { change (heap w4) with (heap w3 ++ [kept]). by rewrite H3, <- app_assoc. }
  assert (Hl4 : length (heap w4) = S (S (S (S L)))).
  { rewrite H4, length_app. simpl. unfold L. lia. }
  assert (Hk4 : heap w4 !! S (S (S L)) = Some kept).
  { rewrite H4, lookup_app_r by (unfold L; lia).
    by replace (S (S (S L)) - length (heap w))%nat with 3%nat by (unfold L; lia). }
  assert (Hg4 : heap w4 !! df_global w4 = Some d1).
  { change (df_global w4) with (S L). rewrite H4, lookup_app_r by (unfold L; lia).
    by replace (S L - length (heap w))%nat with 1%nat by (unfold L; lia). }
  assert (He : empty (S (S (S L))) w4 = Ok (is_empty kept, w4)).
  { unfold empty. by erewrite bind_run; [| apply (load_run _ _ kept); exact Hk4]. }
  rewrite (bind_run _ _ _ _ _ He). clear He.
  assert (Hr4 : np_random w4 = np_random (advance_by 5 (seeded w))) by reflexivity.
  assert (Hjx : ∀ j, draws (-0.3) 0.3 j w4
                     = draws (-0.3) 0.3 j (advance_by 5 (seeded w))).
  { intros j. by apply draws_ext. }
  assert (Hjy : ∀ j, draws (-0.3) 0.3 j (advance_by j w4)
                     = draws (-0.3) 0.3 j (advance_by (j + 5) (seeded w))).
  { intros j. apply draws_ext. simpl. f_equal. lia. }
  unfold is_empty, f0, retained, k, f0, retained. simpl rows at 1.
  destruct (matching sel d1) as [|r1 rest] eqn:Ematch.
  - (* nothing matched: filtered_df is df_global itself *)
    erewrite bind_run; [| reflexivity].
    rewrite (render_run sel (df_global w4) w4 d1 d1 Hg4 Hg4 Hcols).
    rewrite Hjx, Hjy. eexists. split; [exact Hpass |]. split; [reflexivity |].
    match goal with
    | |- heap (set_heap ?h _) !! _ = Some ?x => change (h !! S L = Some x)
    end.
    change (df_global w4) with (S L).
    apply list_lookup_insert_eq. rewrite Hl4. lia.
  - (* some rows matched: filtered_df is the copy *)
    rewrite bool_decide_eq_false_2 by (by apply survey_columns_nonempty).
    erewrite bind_run; [| reflexivity].
    assert (Hck : survey_columns ⊆ columns kept) by exact Hcols.
    rewrite (render_run sel (S (S (S L))) w4 kept d1 Hk4 Hg4 Hck).
    rewrite Hjx, Hjy. eexists. split; [exact Hpass |]. split; [reflexivity |].
    match goal with
    | |- heap (set_heap ?h _) !! _ = Some ?x => change (h !! S L = Some x)
    end.
    rewrite list_lookup_insert_ne by lia. exact Hg4.
Qed.

(** ** Generated records *)

Lemma generate_survey_data_frame (n : Z) (w : World) :
  ∃ w' d,
    generate_survey_data n w = Ok (length (heap w), w') ∧
    heap w' !! length (heap w) = Some d ∧
    heap w' = heap w ++ [d] ∧ df_global w' = df_global w ∧
    length (rows d) = Z.to_nat n ∧
    ∀ i r, rows d !! i = Some r → ∃ s, pass (advance_by (5 * i) (seeded w)) s r.
Proof.
  destruct (generate_survey_data_run n w) as (new & Hgen & Hlen & Hall).
  rewrite (generated_rows _ _ Hall) in Hgen.
  eexists _, _. split; [exact Hgen |]. simpl.
  split; [by apply list_lookup_middle |]. by repeat split.
Qed.

Lemma record_fields (program usage study distraction impact : string) :
  let r := record program usage study distraction impact in
  r !! "Program_of_Study" = Some (VStr program) ∧
  usage_is r usage ∧ fields r distraction impact study.
Proof. by repeat split. Qed.

Lemma record_usage (program usage study distraction impact u : string) :
  usage_is (record program usage study distraction impact) u → usage = u.
Proof.
  intros H. change (Some (VStr usage) = Some (VStr u)) in H. by injection H.
Qed.

Lemma bucket_in (s : Q) (usage : string) :
  bucket s usage → usage ∈ usage_buckets ∧ usage ≠ "".
Proof.
  intros (H1 & H2 & H3 & H4 & H5). unfold usage_buckets.
  destruct (Qlt_le_dec s 2); [rewrite H1 by done; split; [set_solver | done] |].
  destruct (Qlt_le_dec s 4); [rewrite H2 by done; split; [set_solver | done] |].
  destruct (Qlt_le_dec s 6); [rewrite H3 by done; split; [set_solver | done] |].
  destruct (Qlt_le_dec s 8); [rewrite H4 by done; split; [set_solver | done] |].
  rewrite H5 by done. split; [set_solver | done].
Qed.

Lemma regime_cases (s : Q) (d i st : string) :
  regime s d i st →
  ((6 < s)%Q ∧ heavy_values d i st) ∨
  ((s < 3)%Q ∧ light_values d i st) ∨
  ((3 <= s)%Q ∧ (s <= 6)%Q ∧ average_values d i st).
Proof.
  intros (Hh & Hl & Ha).
  destruct (Qlt_le_dec 6 s) as [H6 | H6]; [left; split; [done | by apply Hh] |].
  destruct (Qlt_le_dec s 3) as [H3 | H3]; [right; left; split; [done | by apply Hl] |].
  right; right. split; [done |]. split; [done |]. by apply Ha.
Qed.

Lemma heavy_light_disjoint (d i st : string) :
  heavy_values d i st →
  (i ∉ ["Strongly Positive"; "Somewhat Positive"; "Neutral"]) ∧
  (st ∉ ["5–7 hours"; "8+ hours"]).
Proof.
  intros (_ & Hi & Hst). split; intros Hin.
  - in_list Hi; in_list Hin; done.
  - in_list Hst; in_list Hin; done.
Qed.

Lemma always_is_heavy (s : Q) (i st : string) :
  regime s "Always" i st → heavy_values "Always" i st.
Proof.
  intros H. destruct (regime_cases _ _ _ _ H) as [[_ Hh] | [[_ Hl] | (_ & _ & Ha)]].
  - done.
  - destruct Hl as (Hd & _). in_list Hd; done.
  - destruct Ha as (Hd & _). in_list Hd; done.
Qed.

Lemma bucket_score (s : Q) (usage : string) :
  bucket s usage →
  (usage = "More than 6 hours" → (8 <= s)%Q) ∧
  (usage = "Less than 1 hour" → (s < 2)%Q) ∧
  (usage = "3–4 hours" → (4 <= s)%Q ∧ (s < 6)%Q).
Proof.
  intros (H1 & H2 & H3 & H4 & H5).
  destruct (Qlt_le_dec s 2) as [L2 | L2].
  { rewrite (H1 L2). repeat split; try done; intros; lra. }
  destruct (Qlt_le_dec s 4) as [L4 | L4].
  { rewrite (H2 (conj L2 L4)). repeat split; try done; intros; lra. }
  destruct (Qlt_le_dec s 6) as [L6 | L6].
  { rewrite (H3 (conj L4 L6)). repeat split; try done; intros; lra. }
  destruct (Qlt_le_dec s 8) as [L8 | L8].
  { rewrite (H4 (conj L6 L8)). repeat split; try done; intros; lra. }
  rewrite (H5 L8). repeat split; try done; intros; lra.
Qed.

(** ** Claims about the generator *)

(** C1. The usage bucket of a row is fixed by the hidden score through the
    thresholds 2, 4, 6 and 8: below 2, from 2 to below 4, from 4 to below 6,
    from 6 to below 8, and from 8 on. This holds at every rational score,
    every rational is a score the normal draw can deliver, and every record
    of a generated frame is built in this way from the score drawn for it. *)
Theorem usage_bucket_thresholds :
  (∀ (program : string) (s : Q) (w : World),
     ∃ r w', survey_row program s w = Ok (r, w') ∧
       ((s < 2)%Q → usage_is r "Less than 1 hour") ∧
       ((2 <= s)%Q ∧ (s < 4)%Q → usage_is r "1–2 hours") ∧
       ((4 <= s)%Q ∧ (s < 6)%Q → usage_is r "3–4 hours") ∧
       ((6 <= s)%Q ∧ (s < 8)%Q → usage_is r "5–6 hours") ∧
       ((8 <= s)%Q → usage_is r "More than 6 hours")) ∧
  (∀ q : Q, ∃ w s, normal 5 2.5 w = Ok (s, advance w) ∧ (s == q)%Q) ∧
  (∀ (n : Z) (w : World),
     ∃ f w' d, generate_survey_data n w = Ok (f, w') ∧ heap w' !! f = Some d ∧
       ∀ i r, rows d !! i = Some r →
         ∃ s usage, pass (advance_by (5 * i) (seeded w)) s r ∧
                    usage_is r usage ∧ bucket s usage).
Proof.
  split; [| split].
  - intros program s w.
    destruct (survey_row_run program s w) as (usage & d & i & st & Hrun & Hb & _).
    eexists _, _. split; [exact Hrun |].
    destruct Hb as (H1 & H2 & H3 & H4 & H5).
    repeat split; intros H; unfold usage_is;
      [rewrite <- (H1 H) | rewrite <- (H2 H) | rewrite <- (H3 H)
      | rewrite <- (H4 H) | rewrite <- (H5 H)]; reflexivity.
  - intros q.
    exists (mkWorld [] 0 (mkRandomState (λ _, (q - 5) * (2 # 5))%Q 0) (λ _ _, 0%Q) 0).
    eexists. split; [reflexivity |]. simpl. unfold peek. simpl. ring.
  - intros n w.
    destruct (generate_survey_data_frame n w) as (w' & d & Hgen & Hd & _ & _ & _ & Hall).
    exists (length (heap w)), w', d. split; [done |]. split; [done |].
    intros i r Hi. destruct (Hall i r Hi) as (s & Hs).
    destruct (pass_record _ _ _ Hs) as (p & usage & ds & im & st & -> & _ & Hb & _).
    by exists s, usage.
Qed.

(** C2. The regime is a three-way partition of the score: above 6 is
    Heavy, below 3 is Light, anything else (3 to 6, ends included) is
    Average, and no score falls in two of them. The distraction, impact and
    study fields of a row come from the table of the regime of its score,
    at every score and in every record of a generated frame. *)
Theorem regime_partition :
  (∀ s : Q,
     ((6 < s)%Q ∧ ¬ (s < 3)%Q ∧ ¬ ((3 <= s)%Q ∧ (s <= 6)%Q)) ∨
     (¬ (6 < s)%Q ∧ (s < 3)%Q ∧ ¬ ((3 <= s)%Q ∧ (s <= 6)%Q)) ∨
     (¬ (6 < s)%Q ∧ ¬ (s < 3)%Q ∧ ((3 <= s)%Q ∧ (s <= 6)%Q))) ∧
  (∀ (program : string) (s : Q) (w : World),
     ∃ r w' distraction impact study,
       survey_row program s w = Ok (r, w') ∧
       fields r distraction impact study ∧
       ((6 < s)%Q → heavy_values distraction impact study) ∧
       ((s < 3)%Q → light_values distraction impact study) ∧
       ((3 <= s)%Q ∧ (s <= 6)%Q → average_values distraction impact study)) ∧
  (∀ (n : Z) (w : World),
     ∃ f w' d, generate_survey_data n w = Ok (f, w') ∧ heap w' !! f = Some d ∧
       ∀ i r, rows d !! i = Some r →
         ∃ s distraction impact study,
           pass (advance_by (5 * i) (seeded w)) s r ∧
           fields r distraction impact study ∧
           regime s distraction impact study).
Proof.
  split; [| split].
  - intros s.
    destruct (Qlt_le_dec 6 s); [left; repeat split; try done; intros H; lra |].
    destruct (Qlt_le_dec s 3); [right; left; repeat split; try done; intros H; lra |].
    right; right. repeat split; try done; intros H; lra.
  - intros program s w.
    destruct (survey_row_run program s w) as (usage & d & i & st & Hrun & _ & Hr).
    eexists _, _, d, i, st. split; [exact Hrun |]. split; [| exact Hr].
    apply record_fields.
  - intros n w.
    destruct (generate_survey_data_frame n w) as (w' & d & Hgen & Hd & _ & _ & _ & Hall).
    exists (length (heap w)), w', d. split; [done |]. split; [done |].
    intros i r Hi. destruct (Hall i r Hi) as (s & Hs).
    destruct (pass_record _ _ _ Hs) as (p & usage & ds & im & st & -> & _ & _ & Hr).
    exists s, ds, im, st. split; [done |]. split; [| done]. apply record_fields.
Qed.

Lemma regime_in (s : Q) (d i st : string) :
  regime s d i st →
  (d ∈ distraction_levels ∧ d ≠ "") ∧ (i ∈ impact_levels ∧ i ≠ "") ∧
  (st ∈ study_buckets ∧ st ≠ "").
Proof.
  intros H. unfold distraction_levels, impact_levels, study_buckets.
  destruct (regime_cases _ _ _ _ H)
    as [[_ (Hd & Hi & Hst)] | [[_ (Hd & Hi & Hst)] | (_ & _ & Hd & Hi & Hst)]];
    in_list Hd; in_list Hi; in_list Hst;
    repeat split; first [done | set_solver].
Qed.

Lemma record_in_domains (program usage study distraction impact : string) (s : Q) :
  program ∈ programs → bucket s usage → regime s distraction impact study →
  in_domains (record program usage study distraction impact).
Proof.
  intros Hp Hb Hr.
  destruct (bucket_in _ _ Hb) as [Hu Hu'].
  destruct (regime_in _ _ _ _ Hr) as ((Hd & Hd') & (Hi & Hi') & (Hst & Hst')).
  assert (Hp' : program ≠ "").
  { intros ->. unfold programs in Hp. in_list Hp. }
  unfold in_domains, field_in.
  split; [| split; [| split; [| split]]]; eexists;
    (split; [reflexivity |]); by split.
Qed.

(** C8. For a non-negative [n], [generate_survey_data(n)] returns a frame
    of exactly [n] records, none when [n] is 0, and in each record the five
    categorical fields hold non-empty strings of their fixed domains. *)
Theorem generate_survey_data_records (n : Z) (w : World) :
  (0 <= n)%Z →
  ∃ f w' d,
    generate_survey_data n w = Ok (f, w') ∧ heap w' !! f = Some d ∧
    Z.of_nat (length (rows d)) = n ∧
    (n = 0%Z → rows d = []) ∧
    Forall in_domains (rows d).
Proof.
  intros Hn.
  destruct (generate_survey_data_frame n w) as (w' & d & Hgen & Hd & _ & _ & Hlen & Hall).
  exists (length (heap w)), w', d. split; [done |]. split; [done |].
  split; [lia |]. split.
  - intros ->. by destruct (rows d).
  - apply Forall_lookup_2. intros i r Hi.
    destruct (Hall i r Hi) as (s & Hs).
    destruct (pass_record _ _ _ Hs) as (p & usage & ds & im & st & -> & Hp & Hb & Hr).
    by eapply record_in_domains.
Qed.

(** C9. In every record of a generated frame, a distraction frequency of
    Always comes with a heavy-regime impact (Somewhat or Strongly Negative)
    and a heavy-regime study bucket (Less than 2 hours or 2–4 hours), and
    so never with a light-regime impact or study value. *)
Theorem always_only_with_heavy (n : Z) (w : World) :
  ∃ f w' d,
    generate_survey_data n w = Ok (f, w') ∧ heap w' !! f = Some d ∧
    Forall (λ r, r !! "Distraction_Frequency" = Some (VStr "Always") →
              ∃ impact study,
                r !! "Productivity_Impact" = Some (VStr impact) ∧
                r !! "Daily_Study_Work_Hours" = Some (VStr study) ∧
                impact ∈ ["Somewhat Negative"; "Strongly Negative"] ∧
                study ∈ ["Less than 2 hours"; "2–4 hours"] ∧
                (impact ∉ ["Strongly Positive"; "Somewhat Positive"; "Neutral"]) ∧
                (study ∉ ["5–7 hours"; "8+ hours"]))
           (rows d).
Proof.
  destruct (generate_survey_data_frame n w) as (w' & d & Hgen & Hd & _ & _ & _ & Hall).
  exists (length (heap w)), w', d. split; [done |]. split; [done |].
  apply Forall_lookup_2. intros i r Hi Halways.
  destruct (Hall i r Hi) as (s & Hs).
  destruct (pass_record _ _ _ Hs) as (p & usage & ds & im & st & -> & _ & _ & Hr).
  assert (ds = "Always") as -> by (by injection Halways).
  pose proof (always_is_heavy _ _ _ Hr) as Hh.
  destruct (heavy_light_disjoint _ _ _ Hh) as [Hni Hnst].
  destruct Hh as (_ & Him & Hst).
  by exists im, st.
Qed.

(** C10. In every record of a generated frame, the bucket More than 6
    hours comes with heavy-regime values, Less than 1 hour with
    light-regime values and 3–4 hours with average-regime values. The two
    other buckets each occur under two regimes: 1–2 hours under Light and
    under Average, 5–6 hours under Average and under Heavy. *)
Theorem bucket_regime_pairing :
  (∀ (n : Z) (w : World),
     ∃ f w' d, generate_survey_data n w = Ok (f, w') ∧ heap w' !! f = Some d ∧
       Forall (λ r, ∃ distraction impact study,
                 fields r distraction impact study ∧
                 (usage_is r "More than 6 hours" →
                    heavy_values distraction impact study) ∧
                 (usage_is r "Less than 1 hour" →
                    light_values distraction impact study) ∧
                 (usage_is r "3–4 hours" →
                    average_values distraction impact study))
              (rows d)) ∧
  (∃ w1 s1 r1 w2 s2 r2,
     pass w1 s1 r1 ∧ pass w2 s2 r2 ∧
     usage_is r1 "1–2 hours" ∧ usage_is r2 "1–2 hours" ∧
     (s1 < 3)%Q ∧ fields r1 "Rarely" "Neutral" "5–7 hours" ∧
     ((3 <= s2)%Q ∧ (s2 <= 6)%Q) ∧ fields r2 "Sometimes" "Neutral" "5–7 hours") ∧
  (∃ w1 s1 r1 w2 s2 r2,
     pass w1 s1 r1 ∧ pass w2 s2 r2 ∧
     usage_is r1 "5–6 hours" ∧ usage_is r2 "5–6 hours" ∧
     ((3 <= s1)%Q ∧ (s1 <= 6)%Q) ∧ fields r1 "Sometimes" "Neutral" "5–7 hours" ∧
     (6 < s2)%Q ∧ fields r2 "Always" "Strongly Negative" "Less than 2 hours").
Proof.
  split; [| split].
  - intros n w.
    destruct (generate_survey_data_frame n w) as (w' & d & Hgen & Hd & _ & _ & _ & Hall).
    exists (length (heap w)), w', d. split; [done |]. split; [done |].
    apply Forall_lookup_2. intros i r Hi.
    destruct (Hall i r Hi) as (s & Hs).
    destruct (pass_record _ _ _ Hs) as (p & usage & ds & im & st & -> & _ & Hb & Hr).
    destruct (bucket_score _ _ Hb) as (H8 & H2 & H46).
    destruct Hr as (Hh & Hl & Ha).
    exists ds, im, st. split; [apply record_fields |].
    split; [| split]; intros Hu; apply record_usage in Hu as ->.
    + apply Hh. specialize (H8 eq_refl). lra.
    + apply Hl. specialize (H2 eq_refl). lra.
    + apply Ha. specialize (H46 eq_refl). lra.
  - exists (world_of (-1)), (5 + 2.5 * -1)%Q, (record "Arts and Interior Architecture" "1–2 hours" "5–7 hours" "Rarely" "Neutral").
    exists (world_of (-0.6)), (5 + 2.5 * -0.6)%Q, (record "Arts and Interior Architecture" "1–2 hours" "5–7 hours" "Sometimes" "Neutral").
    split; [| split].
    + exists "Arts and Interior Architecture". split; [set_solver |].
      split; [| split]; reflexivity.
    + exists "Arts and Interior Architecture". split; [set_solver |].
      split; [| split]; reflexivity.
    + repeat split; try reflexivity; try lra.
  - exists (world_of 0.4), (5 + 2.5 * 0.4)%Q, (record "Arts and Interior Architecture" "5–6 hours" "5–7 hours" "Sometimes" "Neutral").
    exists (world_of 0.8), (5 + 2.5 * 0.8)%Q, (record "Arts and Interior Architecture" "5–6 hours" "Less than 2 hours" "Always" "Strongly Negative").
    split; [| split].
    + exists "Arts and Interior Architecture". split; [set_solver |].
      split; [| split]; reflexivity.
    + exists "Arts and Interior Architecture". split; [set_solver |].
      split; [| split]; reflexivity.
    + repeat split; try reflexivity; try lra.
Qed.

(** ** Claims about the callback *)

Lemma length_appended (d : DataFrame) (r0 : row) :
  length (rows (appended d r0)) = S (length (rows d)).
Proof. simpl. rewrite length_fmap, length_app. simpl. lia. Qed.

Lemma length_projected (f0 : DataFrame) (jx jy : list Q) :
  length (rows (projected f0 jx jy)) = length (rows f0).
Proof. simpl. by rewrite !length_set_column. Qed.

Lemma update_dashboard_length (n : Z) (sel : option string) (w : World) (d : DataFrame) :
  heap w !! df_global w = Some d →
  ∃ out w' d',
    update_dashboard n sel w = Ok (out, w') ∧
    heap w' !! df_global w' = Some d' ∧
    length (rows d') = S (length (rows d)) ∧
    summary_text out = "Total Responses: " +:+ pretty (length (rows d')).
Proof.
  intros Hd.
  destruct (update_dashboard_run n sel w d Hd) as (s & r0 & w' & _ & Hrun & Hg).
  eexists _, w', _. split; [exact Hrun |]. split; [exact Hg |].
  destruct (matching sel (appended d r0)).
  - rewrite length_projected, length_appended. done.
  - rewrite length_appended. done.
Qed.

(** C5. Whatever the selected program and whatever the Dataset before the
    call, one call of the callback leaves a Dataset that is one record
    longer. *)
Theorem refresh_appends_one (n : Z) (sel : option string) (w : World) (d : DataFrame) :
  heap w !! df_global w = Some d →
  ∃ out w' d',
    update_dashboard n sel w = Ok (out, w') ∧
    heap w' !! df_global w' = Some d' ∧
    length (rows d') = (length (rows d) + 1)%nat.
Proof.
  intros Hd.
  destruct (update_dashboard_length n sel w d Hd) as (out & w' & d' & Hrun & Hg & Hlen & _).
  exists out, w', d'. split; [done |]. split; [done |]. lia.
Qed.

Lemma refresh_appends_one_witness :
  heap world_blank !! df_global world_blank = Some (mkDataFrame ∅ []) ∧
  ∃ out w' d',
    update_dashboard 0 (Some "Data science") world_blank = Ok (out, w') ∧
    heap w' !! df_global w' = Some d' ∧
    length (rows d') = (length (rows (mkDataFrame ∅ [])) + 1)%nat.
Proof.
  split; [reflexivity |].
  apply (refresh_appends_one 0 (Some "Data science") world_blank (mkDataFrame ∅ [])).
  reflexivity.
Defined.

(** C6. Along every sequence of calls, the summary text of each call is
    "Total Responses: " followed by the decimal length of the whole Dataset
    as that same call's append has left it: the length before the sequence
    plus the number of calls made so far, this one included. *)
Theorem summary_counts_dataset (calls : list (Z * option string)) (w : World) (d : DataFrame) :
  heap w !! df_global w = Some d →
  ∃ outs w' d',
    refreshes calls w = Ok (outs, w') ∧
    heap w' !! df_global w' = Some d' ∧
    length (rows d') = (length (rows d) + length calls)%nat ∧
    length outs = length calls ∧
    ∀ i o, outs !! i = Some o →
      summary_text o = "Total Responses: " +:+ pretty (length (rows d) + i + 1)%nat.
Proof.
  revert w d. induction calls as [|[n sel] calls IH]; intros w d Hd.
  - exists [], w, d. split; [done |]. split; [done |]. split; [simpl; lia |].
    split; [done |]. intros i o Hi. done.
  - destruct (update_dashboard_length n sel w d Hd)
      as (out & w1 & d1 & Hrun & Hg & Hlen & Hsum).
    destruct (IH w1 d1 Hg) as (outs & w' & d' & Hruns & Hg' & Hlen' & Hlo & Hall).
    exists (out :: outs), w', d'. split.
    { simpl refreshes. by rewrite (bind_run _ _ _ _ _ Hrun), (bind_run _ _ _ _ _ Hruns). }
    split; [done |]. split; [simpl; lia |]. split; [simpl; lia |].
    intros [|i] o Hi.
    + injection Hi as <-. rewrite Hsum, Hlen. do 2 f_equal. lia.
    + rewrite (Hall i o Hi), Hlen. do 2 f_equal. lia.
Qed.

Lemma summary_counts_dataset_witness :
  heap world_blank !! df_global world_blank = Some (mkDataFrame ∅ []) ∧
  ∃ outs w' d',
    refreshes [(0%Z, Some "Data science"); (1%Z, None); (2%Z, Some "Law")] world_blank
      = Ok (outs, w') ∧
    heap w' !! df_global w' = Some d' ∧
    length (rows d') = (0 + 3)%nat ∧
    length outs = 3%nat ∧
    ∀ i o, outs !! i = Some o →
      summary_text o = "Total Responses: " +:+ pretty (0 + i + 1)%nat.
Proof.
  split; [reflexivity |].
  apply (summary_counts_dataset
           [(0%Z, Some "Data science"); (1%Z, None); (2%Z, Some "Law")]
           world_blank (mkDataFrame ∅ [])).
  reflexivity.
Defined.

Lemma pass_functional (w : World) (s s' : Q) (r r' : row) :
  pass w s r → pass w s' r' → s = s' ∧ r = r'.
Proof.
  intros (p & _ & Hc & Hn & Hr) (p' & _ & Hc' & Hn' & Hr').
  rewrite Hc in Hc'. injection Hc' as <-.
  rewrite Hn in Hn'. injection Hn' as Hs.
  assert (s = s') as <-.
  { destruct s, s'. simpl in *. congruence. }
  rewrite Hr in Hr'. by injection Hr' as <-.
Qed.

Lemma select_none {A : Type} (xs : list A) (mask : list bool) :
  Forall (λ b, b = false) mask → select xs mask = [].
Proof.
  intros H. revert xs. induction H as [|b mask -> _ IH]; intros [|x xs]; simpl; auto.
Qed.

Lemma matching_None (d : DataFrame) : matching None d = [].
Proof.
  unfold matching. apply select_none.
  apply Forall_fmap, Forall_fmap, Forall_true. intros r. simpl.
  by destruct (cell "Program_of_Study" r).
Qed.

(** C4. When the selected program matches no record of the Dataset as the
    append has left it, the call still returns its four outputs, and the
    data of the three figures are those computed over every record of the
    Dataset: the same data a call with no selection at all returns. No
    selected value makes the call raise. *)
Theorem fallback_uses_whole_dataset (n : Z) (sel : option string) (w : World) (d : DataFrame) :
  heap w !! df_global w = Some d →
  ∃ s r0 out w',
    pass (seeded w) s r0 ∧
    update_dashboard n sel w = Ok (out, w') ∧
    (matching sel (appended d r0) = [] →
       let all := rows (appended d r0) in
       let k := length all in
       let jx := draws (-0.3) 0.3 k (advance_by 5 (seeded w)) in
       let jy := draws (-0.3) 0.3 k (advance_by (k + 5) (seeded w)) in
       chart_data out
         = (zip3 (jittered sm_map "Average_Daily_SM_Usage" all jx)
                 (jittered study_map "Daily_Study_Work_Hours" all jy)
                 (cell "Distraction_Frequency" <$> all),
            value_counts (cell "Distraction_Frequency" <$> all),
            cell "Productivity_Impact" <$> all) ∧
       ∃ out0 w0,
         update_dashboard n None w = Ok (out0, w0) ∧
         chart_data out0 = chart_data out).
Proof.
  intros Hd.
  destruct (update_dashboard_run n sel w d Hd) as (s & r0 & w' & Hpass & Hrun & _).
  destruct (update_dashboard_run n None w d Hd) as (s0 & r00 & w0 & Hpass0 & Hrun0 & _).
  destruct (pass_functional _ _ _ _ _ Hpass Hpass0) as [<- <-].
  eexists s, r0, _, w'. split; [exact Hpass |]. split; [exact Hrun |].
  intros Hnone. unfold retained. rewrite Hnone. split; [reflexivity |].
  eexists _, w0. split; [exact Hrun0 |].
  unfold retained. by rewrite matching_None.
Qed.

Lemma fallback_uses_whole_dataset_witness :
  heap world_blank !! df_global world_blank = Some (mkDataFrame ∅ []) ∧
  ∃ s r0 out w',
    pass (seeded world_blank) s r0 ∧
    update_dashboard 0 (Some "Law") world_blank = Ok (out, w') ∧
    (matching (Some "Law") (appended (mkDataFrame ∅ []) r0) = [] →
       let all := rows (appended (mkDataFrame ∅ []) r0) in
       let k := length all in
       let jx := draws (-0.3) 0.3 k (advance_by 5 (seeded world_blank)) in
       let jy := draws (-0.3) 0.3 k (advance_by (k + 5) (seeded world_blank)) in
       chart_data out
         = (zip3 (jittered sm_map "Average_Daily_SM_Usage" all jx)
                 (jittered study_map "Daily_Study_Work_Hours" all jy)
                 (cell "Distraction_Frequency" <$> all),
            value_counts (cell "Distraction_Frequency" <$> all),
            cell "Productivity_Impact" <$> all) ∧
       ∃ out0 w0,
         update_dashboard 0 None world_blank = Ok (out0, w0) ∧
         chart_data out0 = chart_data out).
Proof.
  split; [reflexivity |].
  apply (fallback_uses_whole_dataset 0 (Some "Law") world_blank (mkDataFrame ∅ [])).
  reflexivity.
Defined.

(** ** The running process *)

Lemma cell_fill (c : string) (cols : gset string) (r : row) :
  cell c (fill cols r) = cell c r.
Proof.
  unfold cell, fill. rewrite lookup_union.
  destruct (r !! c) as [v|] eqn:E; simpl.
  - by destruct (gset_to_gmap NaN cols !! c).
  - destruct (gset_to_gmap NaN cols !! c) as [v|] eqn:E'; [| done].
    apply lookup_gset_to_gmap_Some in E' as [_ <-]. done.
Qed.











Lemma zip3_lookup {A B C : Type} (xs : list A) (ys : list B) (zs : list C)
    (i : nat) (x : A) (y : B) (z : C) :
  xs !! i = Some x → ys !! i = Some y → zs !! i = Some z →
  zip3 xs ys zs !! i = Some (x, y, z).
Proof.
  revert ys zs i. induction xs as [|a xs IH]; intros [|b ys] [|c zs] [|i] Hx Hy Hz;
    simpl in *; try done.
  - congruence.
  - by apply IH.
Qed.

Lemma length_zip3 {A B C : Type} (xs : list A) (ys : list B) (zs : list C) :
  length xs = length zs → length ys = length zs →
  length (zip3 xs ys zs) = length zs.
Proof.
  revert ys zs. induction xs as [|a xs IH]; intros [|b ys] [|c zs] H1 H2;
    simpl in *; try done.
  rewrite IH; lia.
Qed.





Lemma module_init_runs (entropy : nat → nat → Q) :
  ∃ w, module_init (boot entropy) = Ok ((), w).
Proof.
  destruct (generate_survey_data_frame 100 (boot entropy)) as (w1 & d & Hgen & _).
  eexists. unfold module_init. rewrite (bind_run _ _ _ _ _ Hgen). reflexivity.
Qed.

Lemma world_example_reachable : reachable world_example.
Proof.
  destruct (module_init_runs entropy_example) as [w H].
  unfold world_example. rewrite H. by apply (reach_init entropy_example).
Qed.


(** ** The fallback path and the stored Dataset *)

Lemma set_column_lookup (c : string) (rs : list row) (s : list value) (i : nat) (r : row) :
  length s = length rs → rs !! i = Some r →
  ∃ v, s !! i = Some v ∧ set_column c rs s !! i = Some (<[c := v]> r).
Proof.
  revert s i. induction rs as [|r1 rs IH]; intros [|v s] [|i] Hlen Hi; simpl in *;
    try done.
  - injection Hi as <-. by exists v.
  - apply IH; [lia | done].
Qed.

Lemma projected_lookup (f0 : DataFrame) (jx jy : list Q) (i : nat) (r : row) :
  length jx = length (rows f0) → length jy = length (rows f0) →
  rows f0 !! i = Some r →
  ∃ r' x y,
    rows (projected f0 jx jy) !! i = Some r' ∧
    r' !! "SM_Numeric" = Some x ∧ r' !! "Study_Numeric" = Some y ∧
    jittered sm_map "Average_Daily_SM_Usage" (rows f0) jx !! i = Some x ∧
    jittered study_map "Daily_Study_Work_Hours" (rows f0) jy !! i = Some y.
Proof.
  intros Hjx Hjy Hi. unfold projected. cbn [rows].
  set (m1 := series_map sm_map _). set (m2 := series_map study_map _).
  set (xs := jittered sm_map _ _ _). set (ys := jittered study_map _ _ _).
  assert (L1 : length m1 = length (rows f0))
    by (unfold m1; by rewrite length_series_map, length_fmap).
  assert (L2 : length m2 = length (rows f0))
    by (unfold m2; by rewrite length_series_map, length_fmap).
  assert (L3 : length xs = length (rows f0)) by (by apply length_jittered).
  assert (L4 : length ys = length (rows f0)) by (by apply length_jittered).
  set (rs1 := set_column "SM_Numeric" (rows f0) m1).
  destruct (set_column_lookup "SM_Numeric" (rows f0) m1 i r L1 Hi) as (v1 & _ & H1).
  fold rs1 in H1.
  assert (L1' : length m2 = length rs1)
    by (unfold rs1; by rewrite length_set_column).
  set (rs2 := set_column "Study_Numeric" rs1 m2).
  destruct (set_column_lookup "Study_Numeric" rs1 m2 i _ L1' H1) as (v2 & _ & H2).
  fold rs2 in H2.
  assert (L2' : length xs = length rs2)
    by (unfold rs2, rs1; by rewrite !length_set_column).
  set (rs3 := set_column "SM_Numeric" rs2 xs).
  destruct (set_column_lookup "SM_Numeric" rs2 xs i _ L2' H2) as (x & Hx & H3).
  fold rs3 in H3.
  assert (L3' : length ys = length rs3)
    by (unfold rs3, rs2, rs1; by rewrite !length_set_column).
  destruct (set_column_lookup "Study_Numeric" rs3 ys i _ L3' H3) as (y & Hy & H4).
  eexists _, x, y. split; [exact H4 |].
  rewrite lookup_insert_ne by done. rewrite !lookup_insert_eq. done.
Qed.

(** The start-up frame: a hundred generated records under the five
    survey columns. *)
Lemma module_init_frame (entropy : nat → nat → Q) :
  ∃ w new,
    module_init (boot entropy) = Ok ((), w) ∧
    heap w !! df_global w = Some (mkDataFrame survey_columns new) ∧
    length new = 100%nat ∧
    Forall (λ r, ∃ p u st d i, r = record p u st d i ∧ p ∈ programs) new.
Proof.
  destruct (generate_survey_data_run 100 (boot entropy)) as (new & Hgen & Hlen & Hall).
  rewrite (generated_rows _ _ Hall) in Hgen.
  change (Z.to_nat 100) with 100%nat in Hlen.
  destruct new as [|r1 new]; [done |].
  eexists _, (r1 :: new). split.
  { unfold module_init. rewrite (bind_run _ _ _ _ _ Hgen). reflexivity. }
  split; [reflexivity |]. split; [done |].
  apply Forall_lookup_2. intros i r Hi. destruct (Hall i r Hi) as (s & Hs).
  destruct (pass_record _ _ _ Hs) as (p & u & d & im & st & -> & Hp & _).
  by exists p, u, st, d, im.
Qed.

Lemma matching_unknown (p : string) (cols : gset string) (rs : list row) :
  p ∉ programs →
  Forall (λ r, ∃ q u st d i, r = record q u st d i ∧ q ∈ programs) rs →
  matching (Some p) (mkDataFrame cols rs) = [].
Proof.
  intros Hp Hall. unfold matching. apply select_none. simpl.
  apply Forall_fmap, Forall_fmap.
  eapply Forall_impl; [exact Hall |].
  intros r (q & u & st & d & i & -> & Hq). simpl.
  change (String.eqb q p = false). apply String.eqb_neq. by intros ->.
Qed.

Lemma appended_rows (new : list row) (r0 : row) :
  Forall (λ r, dom r = survey_columns) (new ++ [r0]) →
  appended (mkDataFrame survey_columns new) r0
    = mkDataFrame (survey_columns ∪ survey_columns) (new ++ [r0]).
Proof.
  intros H. unfold appended, concat_frames. cbn [columns rows]. f_equal.
  apply fill_all_id. eapply Forall_impl; [exact H |].
  intros r Hr. simpl in Hr. rewrite Hr. by apply union_least.
Qed.

(** C3, on the code. At start-up no record of the Dataset has a projection
    cell. After one call whose selected program matches no record (here
    "Law"), the Dataset has the two projection columns, and every earlier
    record has been replaced by one that holds the jittered coordinates of
    the point just plotted for it. *)
Theorem fallback_projection_persists (entropy : nat → nat → Q) (n : Z) :
  ∃ w d out w' d',
    module_init (boot entropy) = Ok ((), w) ∧
    heap w !! df_global w = Some d ∧
    update_dashboard n (Some "Law") w = Ok (out, w') ∧
    heap w' !! df_global w' = Some d' ∧
    length (rows d) = 100%nat ∧
    ("SM_Numeric" ∉ columns d) ∧
    "SM_Numeric" ∈ columns d' ∧ "Study_Numeric" ∈ columns d' ∧
    ∀ i r, rows d !! i = Some r →
      r !! "SM_Numeric" = None ∧ r !! "Study_Numeric" = None ∧
      ∃ r' x y,
        rows d' !! i = Some r' ∧ r' ≠ r ∧
        r' !! "SM_Numeric" = Some x ∧ r' !! "Study_Numeric" = Some y ∧
        scatter_points (fst (fst (fst out))) !! i
          = Some (x, y, cell "Distraction_Frequency" r).
Proof.
  destruct (module_init_frame entropy) as (w & new & Hinit & Hd & Hlen & Hnew).
  destruct (update_dashboard_run n (Some "Law") w _ Hd)
    as (s & r0 & w' & Hpass & Hrun & Hg).
  destruct (pass_record _ _ _ Hpass) as (p0 & u0 & d0 & i0 & st0 & Hr0 & Hp0 & _).
  assert (Hall : Forall (λ r, ∃ q u st d i, r = record q u st d i ∧ q ∈ programs)
                        (new ++ [r0])).
  { apply Forall_app. split; [done |]. constructor; [| constructor].
    by exists p0, u0, st0, d0, i0. }
  assert (Hdom : Forall (λ r, dom r = survey_columns) (new ++ [r0])).
  { eapply Forall_impl; [exact Hall |].
    intros r (q & u & st & d & i & -> & _). apply record_dom. }
  rewrite (appended_rows new r0 Hdom) in Hrun, Hg.
  assert (Hlaw : "Law" ∉ programs).
  { unfold programs. intros H. in_list H. }
  assert (Hnone : matching (Some "Law")
                    (mkDataFrame (survey_columns ∪ survey_columns) (new ++ [r0])) = [])
    by (by apply matching_unknown).
  unfold retained in Hrun, Hg. rewrite Hnone in Hrun, Hg. cbn [rows] in Hrun, Hg.
  set (all := new ++ [r0]) in *.
  set (jx := draws _ _ _ (advance_by 5 _)) in *.
  set (jy := draws _ _ _ (advance_by (_ + 5) _)) in *.
  eexists w, _, _, w', _.
  split; [exact Hinit |]. split; [exact Hd |]. split; [exact Hrun |].
  split; [exact Hg |]. split; [exact Hlen |].
  split; [by vm_compute |].
  split; [cbn [columns projected]; set_solver |].
  split; [cbn [columns projected]; set_solver |].
  intros i r Hi. cbn [rows] in Hi.
  rewrite Forall_lookup in Hnew.
  destruct (Hnew i r Hi) as (q & u & st & d & im & -> & _).
  split; [reflexivity |]. split; [reflexivity |].
  assert (Hi' : rows (mkDataFrame (survey_columns ∪ survey_columns) all) !! i
                = Some (record q u st d im)).
  { cbn [rows]. unfold all. by apply lookup_app_l_Some. }
  assert (Lx : length jx = length all) by apply length_draws.
  assert (Ly : length jy = length all) by apply length_draws.
  destruct (projected_lookup (mkDataFrame (survey_columns ∪ survey_columns) all)
              jx jy i _ Lx Ly Hi')
    as (r' & x & y & Hr' & Hx & Hy & Hjx & Hjy).
  exists r', x, y. split; [exact Hr' |]. split.
  { intros ->. change (None = Some x) in Hx. discriminate Hx. }
  split; [exact Hx |]. split; [exact Hy |].
  unfold figures. cbn [fst scatter_points].
  apply zip3_lookup; [exact Hjx | exact Hjy |].
  cbn [rows] in Hi'. by rewrite list_lookup_fmap, Hi'.
Qed.

(** The filtered path works on a copy: the Dataset is the appended frame,
    untouched by the projections. *)
Lemma filtered_path_keeps_dataset (n : Z) (sel : option string) (w : World) (d : DataFrame) :
  heap w !! df_global w = Some d →
  ∃ s r0 out w' d',
    pass (seeded w) s r0 ∧
    update_dashboard n sel w = Ok (out, w') ∧
    heap w' !! df_global w' = Some d' ∧
    (matching sel (appended d r0) ≠ [] → d' = appended d r0).
Proof.
  intros Hd.
  destruct (update_dashboard_run n sel w d Hd) as (s & r0 & w' & Hpass & Hrun & Hg).
  eexists s, r0, _, w', _. split; [exact Hpass |]. split; [exact Hrun |].
  split; [exact Hg |]. intros Hne. by destruct (matching sel (appended d r0)).
Qed.

Lemma generate_survey_data_records_witness :
  (0 <= 3)%Z ∧
  ∃ f w' d,
    generate_survey_data 3 world_blank = Ok (f, w') ∧ heap w' !! f = Some d ∧
    Z.of_nat (length (rows d)) = 3%Z ∧
    (3%Z = 0%Z → rows d = []) ∧
    Forall in_domains (rows d).
Proof.
  split; [lia |].
  apply (generate_survey_data_records 3 world_blank). lia.
Defined.

(** The scenario of a Dataset seeded with no record: one call for
    "Data science" leaves one record, one bar of count one, and the
    summary "Total Responses: 1". *)
Example refresh_on_empty_dataset :
  match update_dashboard 0 (Some "Data science") world_blank with
  | Ok ((fig1, fig2, fig3, text), w') =>
      text = "Total Responses: 1" ∧
      snd <$> bar_data fig2 = [1%nat] ∧
      (λ d, length (rows d)) <$> heap w' !! df_global w' = Some 1%nat
  | Raise _ => False
  end.
Proof. vm_compute. by repeat split. Qed.

(** No call drops a column of the Dataset: once the fallback path has
    stored the projection columns, later calls find them still there. *)
Lemma dataset_columns_stay (n : Z) (sel : option string) (w : World) (d : DataFrame) :
  heap w !! df_global w = Some d →
  ∃ out w' d',
    update_dashboard n sel w = Ok (out, w') ∧
    heap w' !! df_global w' = Some d' ∧
    columns d ⊆ columns d'.
Proof.
  intros Hd.
  destruct (update_dashboard_run n sel w d Hd) as (s & r0 & w' & _ & Hrun & Hg).
  eexists _, w', _. split; [exact Hrun |]. split; [exact Hg |].
  intros c Hc.
  assert (Ha : c ∈ columns (appended d r0)) by (by apply elem_of_union_l).
  destruct (matching sel (appended d r0)); [| exact Ha].
  cbn [columns projected]. by repeat apply elem_of_union_l.
Qed.

(** ** The Dataset across calls *)

Lemma cell_fill_column (c : string) (cols : gset string) (rs : list row) :
  cell c <$> (fill cols <$> rs) = cell c <$> rs.
Proof.
  rewrite <- list_fmap_compose. apply list_fmap_ext. intros i r _. simpl.
  apply cell_fill.
Qed.

Lemma appended_column (c : string) (d : DataFrame) (r0 : row) :
  cell c <$> rows (appended d r0) = (cell c <$> rows d) ++ [cell c r0].
Proof.
  unfold appended, concat_frames. cbn [rows].
  by rewrite cell_fill_column, fmap_app.
Qed.

Lemma projected_column (c : string) (f0 : DataFrame) (jx jy : list Q) :
  c ≠ "SM_Numeric" → c ≠ "Study_Numeric" →
  cell c <$> rows (projected f0 jx jy) = cell c <$> rows f0.
Proof.
  intros N1 N2. unfold projected. cbn [rows]. by rewrite !cell_set_column_ne.
Qed.

(** Every call extends each column other than the two projection columns
    by the cell of the record it generates, and changes no earlier cell of
    it: on the filtered path and on the fallback path alike. *)
Theorem categorical_columns_append_only
    (n : Z) (sel : option string) (w : World) (d : DataFrame) :
  heap w !! df_global w = Some d →
  ∃ s r0 out w' d',
    pass (seeded w) s r0 ∧
    update_dashboard n sel w = Ok (out, w') ∧
    heap w' !! df_global w' = Some d' ∧
    ∀ c, c ≠ "SM_Numeric" → c ≠ "Study_Numeric" →
      cell c <$> rows d' = (cell c <$> rows d) ++ [cell c r0].
Proof.
  intros Hd.
  destruct (update_dashboard_run n sel w d Hd) as (s & r0 & w' & Hpass & Hrun & Hg).
  eexists s, r0, _, w', _. split; [exact Hpass |]. split; [exact Hrun |].
  split; [exact Hg |]. intros c N1 N2.
  destruct (matching sel (appended d r0)).
  - by rewrite projected_column, appended_column.
  - apply appended_column.
Qed.

Lemma categorical_columns_append_only_witness :
  heap world_blank !! df_global world_blank = Some (mkDataFrame ∅ []) ∧
  ∃ s r0 out w' d',
    pass (seeded world_blank) s r0 ∧
    update_dashboard 0 (Some "Law") world_blank = Ok (out, w') ∧
    heap w' !! df_global w' = Some d' ∧
    ∀ c, c ≠ "SM_Numeric" → c ≠ "Study_Numeric" →
      cell c <$> rows d' = (cell c <$> rows (mkDataFrame ∅ [])) ++ [cell c r0].
Proof.
  split; [reflexivity |].
  apply (categorical_columns_append_only 0 (Some "Law") world_blank (mkDataFrame ∅ [])).
  reflexivity.
Defined.

(** ** Records of the running process *)

Lemma key_cells_column (rs rs' : list row) :
  (∀ c, c ≠ "SM_Numeric" → c ≠ "Study_Numeric" → cell c <$> rs' = cell c <$> rs) →
  key_cells <$> rs' = key_cells <$> rs.
Proof.
  intros H. apply list_eq. intros i. rewrite !list_lookup_fmap.
  assert (H1 := f_equal (λ l : list value, l !! i) (H "Program_of_Study" (λ e, ltac:(discriminate e)) (λ e, ltac:(discriminate e)))).
  assert (H2 := f_equal (λ l : list value, l !! i) (H "Average_Daily_SM_Usage" (λ e, ltac:(discriminate e)) (λ e, ltac:(discriminate e)))).
  assert (H3 := f_equal (λ l : list value, l !! i) (H "Daily_Study_Work_Hours" (λ e, ltac:(discriminate e)) (λ e, ltac:(discriminate e)))).
  assert (H4 := f_equal (λ l : list value, l !! i) (H "Distraction_Frequency" (λ e, ltac:(discriminate e)) (λ e, ltac:(discriminate e)))).
  assert (H5 := f_equal (λ l : list value, l !! i) (H "Productivity_Impact" (λ e, ltac:(discriminate e)) (λ e, ltac:(discriminate e)))).
  simpl in *. rewrite !list_lookup_fmap in *.
  destruct (rs' !! i) as [r'|], (rs !! i) as [r|]; simpl in *; try done.
  unfold key_cells. congruence.
Qed.

Lemma surveyed_key_cells (rs rs' : list row) :
  key_cells <$> rs' = key_cells <$> rs →
  Forall surveyed rs → Forall surveyed rs'.
Proof.
  intros Hk Hs. apply Forall_lookup_2. intros i r' Hi.
  pose proof (f_equal (λ l : list (value * value * value * value * value), l !! i) Hk)
    as H. simpl in H.
  rewrite !list_lookup_fmap, Hi in H. simpl in H.
  destruct (rs !! i) as [r|] eqn:E; [| done]. apply (inj Some) in H.
  rewrite Forall_lookup in Hs. destruct (Hs i r E) as (p & u & st & d & im & Hc & Hrest).
  exists p, u, st, d, im. split; [congruence | exact Hrest].
Qed.

Lemma surveyed_record (program usage study distraction impact : string) (s : Q) :
  program ∈ programs → bucket s usage → regime s distraction impact study →
  surveyed (record program usage study distraction impact).
Proof.
  intros Hp Hb Hr.
  destruct (bucket_in _ _ Hb) as [Hu _].
  destruct (regime_in _ _ _ _ Hr) as ((Hd & _) & (Hi & _) & (Hst & _)).
  exists program, usage, study, distraction, impact. by repeat split.
Qed.

Lemma surveyed_pass (w : World) (s : Q) (r : row) : pass w s r → surveyed r.
Proof.
  intros H. destruct (pass_record _ _ _ H) as (p & u & d & i & st & -> & Hp & Hb & Hr).
  by eapply surveyed_record.
Qed.

Lemma surveyed_select (rs : list row) (mask : list bool) :
  Forall surveyed rs → Forall surveyed (select rs mask).
Proof.
  intros H. revert mask. induction H as [|r rs Hr _ IH]; intros [|[] mask]; simpl;
    try constructor; auto.
Qed.

Lemma surveyed_appended (d : DataFrame) (r0 : row) :
  Forall surveyed (rows d) → surveyed r0 → Forall surveyed (rows (appended d r0)).
Proof.
  intros Hd Hr.
  apply (surveyed_key_cells (rows d ++ [r0])).
  - apply key_cells_column. intros c _ _.
    by rewrite appended_column, fmap_app.
  - apply Forall_app. split; [done |]. by constructor.
Qed.

Lemma surveyed_projected (f0 : DataFrame) (jx jy : list Q) :
  Forall surveyed (rows f0) → Forall surveyed (rows (projected f0 jx jy)).
Proof.
  apply surveyed_key_cells, key_cells_column. intros c N1 N2.
  by apply projected_column.
Qed.

Lemma surveyed_retained (sel : option string) (d : DataFrame) :
  Forall surveyed (rows d) → Forall surveyed (rows (retained sel d)).
Proof.
  intros H. unfold retained.
  destruct (matching sel d) eqn:E; [done |]. simpl. rewrite <- E.
  by apply surveyed_select.
Qed.

Lemma start_frame (entropy : nat → nat → Q) :
  ∃ w new,
    module_init (boot entropy) = Ok ((), w) ∧
    heap w !! df_global w = Some (mkDataFrame survey_columns new) ∧
    length new = 100%nat ∧
    ∀ i r, new !! i = Some r →
      ∃ s, pass (advance_by (5 * i) (seeded (boot entropy))) s r.
Proof.
  destruct (generate_survey_data_run 100 (boot entropy)) as (new & Hgen & Hlen & Hall).
  rewrite (generated_rows _ _ Hall) in Hgen.
  change (Z.to_nat 100) with 100%nat in Hlen.
  destruct new as [|r1 new]; [done |].
  eexists _, (r1 :: new). split.
  { unfold module_init. rewrite (bind_run _ _ _ _ _ Hgen). reflexivity. }
  split; [reflexivity |]. by split.
Qed.

Lemma reachable_surveyed (w : World) :
  reachable w →
  ∃ d, heap w !! df_global w = Some d ∧
       (100 <= length (rows d))%nat ∧ Forall surveyed (rows d).
Proof.
  induction 1 as [entropy w Hinit | w n sel out w' _ (d & Hd & Hlen & Hs) Hrun].
  - destruct (start_frame entropy) as (w1 & new & Hinit' & Hd & Hlen & Hall).
    rewrite Hinit in Hinit'. injection Hinit' as ->.
    eexists. split; [exact Hd |]. cbn [rows]. split; [lia |].
    apply Forall_lookup_2. intros i r Hi.
    destruct (Hall i r Hi) as (s & Hs). by eapply surveyed_pass.
  - destruct (update_dashboard_run n sel w d Hd) as (s & r0 & w1 & Hpass & Hrun' & Hg).
    rewrite Hrun in Hrun'. injection Hrun' as _ <-.
    eexists. split; [exact Hg |].
    pose proof (surveyed_appended d r0 Hs (surveyed_pass _ _ _ Hpass)) as Ha.
    pose proof (length_appended d r0) as Hl.
    destruct (matching sel (appended d r0)).
    + split; [rewrite length_projected; lia | by apply surveyed_projected].
    + split; [lia | done].
Qed.

(** In every world of the running process the Dataset holds at least the
    hundred start-up records, and each of its records has its five
    categorical cells in their fixed domains. *)
Theorem reachable_dataset_valid (w : World) :
  reachable w →
  ∃ d, heap w !! df_global w = Some d ∧
       (100 <= length (rows d))%nat ∧ Forall surveyed (rows d).
Proof. apply reachable_surveyed. Qed.

Lemma reachable_dataset_valid_witness :
  reachable world_example ∧
  ∃ d, heap world_example !! df_global world_example = Some d ∧
       (100 <= length (rows d))%nat ∧ Forall surveyed (rows d).
Proof.
  split; [exact world_example_reachable |].
  apply (reachable_dataset_valid world_example). exact world_example_reachable.
Defined.

(** ** The filter and the figures *)

Lemma select_filter {A : Type} (f : A → bool) (xs : list A) :
  select xs (f <$> xs) = List.filter f xs.
Proof.
  induction xs as [|x xs IH]; [done |].
  rewrite fmap_cons. simpl. rewrite IH. by destruct (f x).
Qed.

Lemma matching_hits (sel : option string) (d : DataFrame) :
  matching sel d = hits sel (rows d).
Proof.
  unfold matching, hits. rewrite <- list_fmap_compose. apply select_filter.
Qed.

Lemma cell_eq_true (sel : option string) (v : value) :
  cell_eq sel v = true ↔ ∃ p, sel = Some p ∧ v = VStr p.
Proof.
  split.
  - destruct v as [s | q |], sel as [p|]; simpl; try done.
    intros H. apply String.eqb_eq in H as ->. by exists p.
  - intros (p & -> & ->). simpl. apply String.eqb_refl.
Qed.

Lemma hits_spec (sel : option string) (rs : list row) (r : row) :
  r ∈ hits sel rs ↔
  r ∈ rs ∧ ∃ p, sel = Some p ∧ cell "Program_of_Study" r = VStr p.
Proof.
  unfold hits. rewrite !list_elem_of_In, filter_In, cell_eq_true. done.
Qed.

Lemma zip3_colors {A B C : Type} (xs : list A) (ys : list B) (zs : list C) :
  length xs = length zs → length ys = length zs →
  snd <$> zip3 xs ys zs = zs.
Proof.
  revert ys zs. induction xs as [|a xs IH]; intros [|b ys] [|c zs] H1 H2;
    try done.
  cbn [zip3]. rewrite fmap_cons. cbn [snd]. f_equal.
  apply IH; simpl in *; lia.
Qed.

Lemma appended_nonempty (d : DataFrame) (r0 : row) : rows (appended d r0) ≠ [].
Proof.
  intros H. pose proof (length_appended d r0) as Hl. rewrite H in Hl. done.
Qed.

(** The three figures of a call are drawn from the same records: those of
    the Dataset, as the append has left it, whose program is the selected
    one, in Dataset order, or every record when there is none. At least one
    record is always plotted, and the scatter has one point per plotted
    record, coloured by its distraction cell. *)
Theorem figures_plot_the_selected_records
    (n : Z) (sel : option string) (w : World) (d : DataFrame) :
  heap w !! df_global w = Some d →
  ∃ s r0 fig1 fig2 fig3 text w',
    pass (seeded w) s r0 ∧
    update_dashboard n sel w = Ok ((fig1, fig2, fig3, text), w') ∧
    let all := rows (appended d r0) in
    let plotted := if hits sel all is [] then all else hits sel all in
    (∀ r, r ∈ hits sel all ↔
          r ∈ all ∧ ∃ p, sel = Some p ∧ cell "Program_of_Study" r = VStr p) ∧
    plotted ≠ [] ∧
    length (scatter_points fig1) = length plotted ∧
    snd <$> scatter_points fig1 = cell "Distraction_Frequency" <$> plotted ∧
    bar_data fig2 = value_counts (cell "Distraction_Frequency" <$> plotted) ∧
    pie_names fig3 = cell "Productivity_Impact" <$> plotted.
Proof.
  intros Hd.
  destruct (update_dashboard_run n sel w d Hd) as (s & r0 & w' & Hpass & Hrun & _).
  unfold figures in Hrun.
  eexists s, r0, _, _, _, _, w'. split; [exact Hpass |]. split; [exact Hrun |].
  cbn [scatter_points bar_data pie_names].
  assert (Hret : rows (retained sel (appended d r0))
                 = if hits sel (rows (appended d r0)) is []
                   then rows (appended d r0) else hits sel (rows (appended d r0))).
  { unfold retained. rewrite matching_hits.
    by destruct (hits sel (rows (appended d r0))). }
  rewrite Hret.
  set (plotted := if hits sel _ is [] then _ else _).
  set (jx := draws _ _ _ (advance_by 5 _)). set (jy := draws _ _ _ (advance_by (_ + 5) _)).
  assert (Hlx : length (jittered sm_map "Average_Daily_SM_Usage" plotted jx)
                = length (cell "Distraction_Frequency" <$> plotted)).
  { rewrite length_fmap. apply length_jittered, length_draws. }
  assert (Hly : length (jittered study_map "Daily_Study_Work_Hours" plotted jy)
                = length (cell "Distraction_Frequency" <$> plotted)).
  { rewrite length_fmap. apply length_jittered. unfold jy. rewrite length_draws.
    subst plotted. by rewrite <- Hret. }
  split; [intros r; apply hits_spec |].
  split.
  { subst plotted. destruct (hits sel (rows (appended d r0))); [| done].
    apply appended_nonempty. }
  split.
  { rewrite (length_zip3 _ _ _ Hlx Hly). apply length_fmap. }
  split; [by apply zip3_colors |]. done.
Qed.

Lemma figures_plot_the_selected_records_witness :
  heap world_blank !! df_global world_blank = Some (mkDataFrame ∅ []) ∧
  ∃ s r0 fig1 fig2 fig3 text w',
    pass (seeded world_blank) s r0 ∧
    update_dashboard 0 (Some "Data science") world_blank
      = Ok ((fig1, fig2, fig3, text), w') ∧
    let all := rows (appended (mkDataFrame ∅ []) r0) in
    let plotted := if hits (Some "Data science") all is [] then all
                   else hits (Some "Data science") all in
    (∀ r, r ∈ hits (Some "Data science") all ↔
          r ∈ all ∧ ∃ p, Some "Data science" = Some p ∧
                         cell "Program_of_Study" r = VStr p) ∧
    plotted ≠ [] ∧
    length (scatter_points fig1) = length plotted ∧
    snd <$> scatter_points fig1 = cell "Distraction_Frequency" <$> plotted ∧
    bar_data fig2 = value_counts (cell "Distraction_Frequency" <$> plotted) ∧
    pie_names fig3 = cell "Productivity_Impact" <$> plotted.
Proof.
  split; [reflexivity |].
  apply (figures_plot_the_selected_records 0 (Some "Data science") world_blank
           (mkDataFrame ∅ [])).
  reflexivity.
Defined.

(** ** The bar chart *)

Lemma value_eqb_str (s : string) (v : value) :
  value_eqb v (VStr s) = true ↔ v = VStr s.
Proof.
  destruct v as [t | q |]; simpl; try done.
  rewrite String.eqb_eq. split; congruence.
Qed.

Lemma count_into_sum (v : value) (acc : list (value * nat)) :
  sum_list (snd <$> count_into v acc) = S (sum_list (snd <$> acc)).
Proof.
  induction acc as [|[k c] acc IH]; [done |].
  cbn [count_into]. destruct (value_eqb k v); rewrite !fmap_cons; cbn [snd sum_list].
  - done.
  - rewrite IH. lia.
Qed.

Lemma count_into_positive (v : value) (acc : list (value * nat)) :
  Forall (λ kc, 1 <= snd kc)%nat acc →
  Forall (λ kc, 1 <= snd kc)%nat (count_into v acc).
Proof.
  induction 1 as [|[k c] acc Hk Hacc IH]; cbn [count_into].
  - repeat constructor.
  - destruct (value_eqb k v).
    + constructor; [cbn [snd]; lia | exact Hacc].
    + constructor; [exact Hk | exact IH].
Qed.

Lemma count_into_keys (s : string) (acc : list (value * nat)) :
  (VStr s ∈ fst <$> acc ∧ fst <$> count_into (VStr s) acc = fst <$> acc) ∨
  ((VStr s ∉ fst <$> acc) ∧
   fst <$> count_into (VStr s) acc = (fst <$> acc) ++ [VStr s]).
Proof.
  induction acc as [|[k c] acc IH].
  - right. split; [| done]. intros H. by apply elem_of_nil in H.
  - cbn [count_into]. destruct (value_eqb k (VStr s)) eqn:E.
    + apply value_eqb_str in E as ->. left. split; [| done].
      rewrite fmap_cons. apply list_elem_of_here.
    + assert (Hk : k ≠ VStr s).
      { intros ->.
        assert (value_eqb (VStr s) (VStr s) = true) by (by apply value_eqb_str).
        congruence. }
      rewrite !fmap_cons. cbn [fst].
      destruct IH as [[Hin Heq] | [Hnin Heq]]; rewrite Heq.
      * left. split; [by apply list_elem_of_further | done].
      * right. split; [| done].
        intros Hin. apply elem_of_cons in Hin as [Hin | Hin]; [by subst | done].
Qed.

Lemma tallied_step (seen : list value) (acc : list (value * nat)) (s : string) :
  tallied seen acc → tallied (seen ++ [VStr s]) (count_into (VStr s) acc).
Proof.
  intros (Hsum & Hpos & Hnd & Hkeys). split; [| split; [| split]].
  - rewrite count_into_sum, Hsum, length_app. simpl. lia.
  - by apply count_into_positive.
  - destruct (count_into_keys s acc) as [[Hin ->] | [Hnin ->]]; [done |].
    apply NoDup_app. split; [done |]. split; [| apply NoDup_singleton].
    intros x Hx Hx'. apply list_elem_of_singleton in Hx'. by subst.
  - intros v. rewrite elem_of_app, list_elem_of_singleton.
    destruct (count_into_keys s acc) as [[Hin ->] | [Hnin ->]].
    + rewrite Hkeys. split; [by left |]. intros [H | ->]; [done | by apply Hkeys].
    + rewrite elem_of_app, list_elem_of_singleton, Hkeys. done.
Qed.

Lemma tally_strings (col : list string) :
  tallied (VStr <$> col) (tally (VStr <$> col)).
Proof.
  unfold tally.
  assert (H : ∀ seen acc, tallied seen acc →
            tallied (seen ++ (VStr <$> col))
                    (foldl (λ acc v, match v with NaN => acc | _ => count_into v acc end)
                           acc (VStr <$> col))).
  { induction col as [|s col IH]; intros seen acc Ht.
    - simpl. by rewrite app_nil_r.
    - rewrite fmap_cons. simpl foldl.
      replace (seen ++ VStr s :: (VStr <$> col))
        with ((seen ++ [VStr s]) ++ (VStr <$> col)) by (by rewrite <- app_assoc).
      apply IH. by apply tallied_step. }
  apply (H [] []). repeat split; try constructor; intros Hin; by apply elem_of_nil in Hin.
Qed.

Lemma insert_desc_perm (x : value * nat) (l : list (value * nat)) :
  insert_desc x l ≡ₚ x :: l.
Proof.
  induction l as [|y l IH]; [done |].
  simpl. destruct (snd y <? snd x)%nat; [done |].
  rewrite IH. apply Permutation_swap.
Qed.

Lemma value_counts_perm (s : list value) : value_counts s ≡ₚ tally s.
Proof.
  unfold value_counts.
  assert (H : ∀ l acc, foldl (λ acc x, insert_desc x acc) acc l ≡ₚ acc ++ l).
  { induction l as [|x l IH]; intros acc; simpl.
    - by rewrite app_nil_r.
    - rewrite IH, insert_desc_perm. simpl. apply Permutation_middle. }
  apply (H (tally s) []).
Qed.

Lemma insert_desc_sorted (x : value * nat) (l : list (value * nat)) :
  descending l → descending (insert_desc x l).
Proof.
  unfold descending. induction 1 as [|y l Hl IH Hy]; simpl.
  - repeat constructor.
  - destruct (snd y <? snd x)%nat eqn:E.
    + apply Nat.ltb_lt in E. constructor; [by constructor |].
      constructor; [lia |]. eapply Forall_impl; [exact Hy |]. simpl. intros; lia.
    + apply Nat.ltb_ge in E. constructor; [exact IH |].
      rewrite insert_desc_perm. by constructor.
Qed.

Lemma value_counts_sorted (s : list value) : descending (value_counts s).
Proof.
  unfold value_counts.
  assert (H : ∀ l acc, descending acc →
                       descending (foldl (λ acc x, insert_desc x acc) acc l)).
  { induction l as [|x l IH]; intros acc Ha; simpl; [done |].
    apply IH. by apply insert_desc_sorted. }
  apply H. constructor.
Qed.

Lemma value_counts_strings (col : list string) :
  let bars := value_counts (VStr <$> col) in
  sum_list (snd <$> bars) = length col ∧
  Forall (λ kc, 1 <= snd kc)%nat bars ∧
  NoDup (fst <$> bars) ∧
  (∀ v, v ∈ fst <$> bars ↔ v ∈ VStr <$> col) ∧
  descending bars.
Proof.
  intros bars. pose proof (value_counts_perm (VStr <$> col)) as Hp. fold bars in Hp.
  destruct (tally_strings col) as (Hsum & Hpos & Hnd & Hkeys).
  split; [| split; [| split; [| split]]].
  - rewrite Hp, Hsum. apply length_fmap.
  - by rewrite Hp.
  - by rewrite Hp.
  - intros v. rewrite Hp. apply Hkeys.
  - apply value_counts_sorted.
Qed.

Lemma surveyed_column (rs : list row) :
  Forall surveyed rs →
  ∃ ds ims,
    cell "Distraction_Frequency" <$> rs = VStr <$> ds ∧
    Forall (λ d, d ∈ distraction_levels) ds ∧
    cell "Productivity_Impact" <$> rs = VStr <$> ims ∧
    Forall (λ i, i ∈ impact_levels) ims.
Proof.
  induction 1 as [|r rs Hr _ (ds & ims & Hd & Hds & Hi & His)].
  - by exists [], [].
  - destruct Hr as (p & u & st & d & i & Hk & _ & _ & _ & Hdl & Hil).
    unfold key_cells in Hk. injection Hk as _ _ _ Hcd Hci.
    exists (d :: ds), (i :: ims). rewrite !fmap_cons, Hd, Hi, Hcd, Hci.
    repeat split; by try constructor.
Qed.

(** In every refresh of the running process the bar chart has one bar per
    distraction level present among the plotted records and no other: the
    bars are distinct levels, at most five, each counted at least once, the
    counts add up to the number of plotted records, and the bars run from
    the most frequent to the least. *)
Theorem bar_chart_counts (w : World) (n : Z) (sel : option string) :
  reachable w →
  ∃ d s r0 fig1 fig2 fig3 text w',
    heap w !! df_global w = Some d ∧ pass (seeded w) s r0 ∧
    update_dashboard n sel w = Ok ((fig1, fig2, fig3, text), w') ∧
    let plotted := rows (retained sel (appended d r0)) in
    let bars := bar_data fig2 in
    sum_list (snd <$> bars) = length plotted ∧
    Forall (λ kc, 1 <= snd kc)%nat bars ∧
    NoDup (fst <$> bars) ∧
    (∀ v, v ∈ fst <$> bars ↔ v ∈ cell "Distraction_Frequency" <$> plotted) ∧
    Forall (λ kc, ∃ level, fst kc = VStr level ∧ level ∈ distraction_levels) bars ∧
    descending bars ∧
    (length bars <= 5)%nat.
Proof.
  intros Hreach.
  destruct (reachable_surveyed w Hreach) as (d & Hd & _ & Hs).
  destruct (update_dashboard_run n sel w d Hd) as (s & r0 & w' & Hpass & Hrun & _).
  unfold figures in Hrun.
  eexists d, s, r0, _, _, _, _, w'. split; [exact Hd |]. split; [exact Hpass |].
  split; [exact Hrun |]. cbn [bar_data].
  pose proof (surveyed_retained sel _
                (surveyed_appended d r0 Hs (surveyed_pass _ _ _ Hpass))) as Hplot.
  set (plotted := rows (retained sel (appended d r0))) in *.
  destruct (surveyed_column plotted Hplot) as (ds & _ & Hcol & Hds & _).
  rewrite Hcol.
  destruct (value_counts_strings ds) as (Hsum & Hpos & Hnd & Hkeys & Hsorted).
  assert (Hlevels : ∀ v, v ∈ fst <$> value_counts (VStr <$> ds) →
                         v ∈ VStr <$> distraction_levels).
  { intros v Hv. apply Hkeys in Hv. apply list_elem_of_fmap in Hv as (x & -> & Hx).
    apply list_elem_of_fmap. exists x. split; [done |].
    rewrite Forall_forall in Hds. by apply Hds. }
  split.
  { rewrite Hsum. rewrite <- (length_fmap VStr ds), <- Hcol. apply length_fmap. }
  split; [exact Hpos |]. split; [exact Hnd |]. split; [exact Hkeys |].
  split.
  { apply Forall_forall. intros [k c] Hkc.
    assert (Hk : k ∈ fst <$> value_counts (VStr <$> ds)).
    { apply list_elem_of_fmap. by exists (k, c). }
    apply Hlevels, list_elem_of_fmap in Hk as (x & -> & Hx). by exists x. }
  split; [exact Hsorted |].
  rewrite <- (length_fmap fst).
  change 5%nat with (length (VStr <$> distraction_levels)).
  apply submseteq_length, NoDup_submseteq; [exact Hnd | exact Hlevels].
Qed.

Lemma bar_chart_counts_witness :
  reachable world_example ∧
  ∃ d s r0 fig1 fig2 fig3 text w',
    heap world_example !! df_global world_example = Some d ∧
    pass (seeded world_example) s r0 ∧
    update_dashboard 0 (Some "Psychology & Counselling") world_example
      = Ok ((fig1, fig2, fig3, text), w') ∧
    let plotted := rows (retained (Some "Psychology & Counselling") (appended d r0)) in
    let bars := bar_data fig2 in
    sum_list (snd <$> bars) = length plotted ∧
    Forall (λ kc, 1 <= snd kc)%nat bars ∧
    NoDup (fst <$> bars) ∧
    (∀ v, v ∈ fst <$> bars ↔ v ∈ cell "Distraction_Frequency" <$> plotted) ∧
    Forall (λ kc, ∃ level, fst kc = VStr level ∧ level ∈ distraction_levels) bars ∧
    descending bars ∧
    (length bars <= 5)%nat.
Proof.
  split; [exact world_example_reachable |].
  apply (bar_chart_counts world_example 0 (Some "Psychology & Counselling")).
  exact world_example_reachable.
Defined.

(** ** Start-up, then refreshes *)

Lemma refreshes_run (calls : list (Z * option string)) (w : World) (d : DataFrame) :
  heap w !! df_global w = Some d →
  ∃ outs w' d',
    refreshes calls w = Ok (outs, w') ∧
    heap w' !! df_global w' = Some d' ∧
    length (rows d') = (length (rows d) + length calls)%nat ∧
    length outs = length calls ∧
    ∀ i o, outs !! i = Some o →
      summary_text o = "Total Responses: " +:+ pretty (length (rows d) + i + 1)%nat.
Proof.
  revert w d. induction calls as [|[n sel] calls IH]; intros w d Hd.
  - exists [], w, d. split; [done |]. split; [done |]. split; [simpl; lia |].
    split; [done |]. intros i o Hi. done.
  - destruct (update_dashboard_length n sel w d Hd)
      as (out & w1 & d1 & Hrun & Hg & Hlen & Hsum).
    destruct (IH w1 d1 Hg) as (outs & w' & d' & Hruns & Hg' & Hlen' & Hlo & Hall).
    exists (out :: outs), w', d'. split.
    { simpl refreshes. by rewrite (bind_run _ _ _ _ _ Hrun), (bind_run _ _ _ _ _ Hruns). }
    split; [done |]. split; [simpl; lia |]. split; [simpl; lia |].
    intros [|i] o Hi.
    + injection Hi as <-. rewrite Hsum, Hlen. do 2 f_equal. lia.
    + rewrite (Hall i o Hi), Hlen. do 2 f_equal. lia.
Qed.

(** From start-up on, whatever the random source and whatever the calls,
    the module body and every call return, the call number [i] (from 0)
    reports "Total Responses: " followed by 101 + i, and the Dataset ends
    with a hundred records plus one per call. *)
Theorem startup_then_refreshes
    (entropy : nat → nat → Q) (calls : list (Z * option string)) :
  ∃ w0 outs w' d',
    module_init (boot entropy) = Ok ((), w0) ∧
    refreshes calls w0 = Ok (outs, w') ∧
    length outs = length calls ∧
    heap w' !! df_global w' = Some d' ∧
    length (rows d') = (100 + length calls)%nat ∧
    ∀ i o, outs !! i = Some o →
      summary_text o = "Total Responses: " +:+ pretty (101 + i)%nat.
Proof.
  destruct (start_frame entropy) as (w0 & new & Hinit & Hd & Hlen & _).
  destruct (refreshes_run calls w0 _ Hd) as (outs & w' & d' & Hrun & Hg & Hl & Hlo & Hall).
  cbn [rows] in Hl, Hall. rewrite Hlen in Hl, Hall.
  exists w0, outs, w', d'. repeat (split; [done |]).
  intros i o Hi. rewrite (Hall i o Hi). do 2 f_equal. lia.
Qed.

(** ** The generator at its edges *)

(** For [n] zero or negative the loop body never runs: the call returns an
    empty frame with no column and no row, and raises nothing. *)
Theorem generate_nothing (n : Z) (w : World) :
  (n <= 0)%Z →
  ∃ w',
    generate_survey_data n w = Ok (length (heap w), w') ∧
    heap w' !! length (heap w) = Some (mkDataFrame ∅ []).
Proof.
  intros Hn.
  destruct (generate_survey_data_run n w) as (new & Hgen & Hlen & _).
  replace (Z.to_nat n) with 0%nat in * by lia.
  destruct new; [| done].
  eexists. split; [exact Hgen |]. simpl. by apply list_lookup_middle.
Qed.

Lemma generate_nothing_witness :
  (-3 <= 0)%Z ∧
  ∃ w',
    generate_survey_data (-3) world_blank = Ok (length (heap world_blank), w') ∧
    heap w' !! length (heap world_blank) = Some (mkDataFrame ∅ []).
Proof.
  split; [lia |]. apply (generate_nothing (-3) world_blank). lia.
Defined.

(** A call for at least one record allocates one new frame and leaves
    every frame that existed, and the binding of the Dataset, as they were.
    The new frame has exactly the five survey columns, and each of its rows
    has a cell in each of them and in no other. *)
Theorem generate_allocates_one_frame (n : Z) (w : World) :
  (1 <= n)%Z →
  ∃ w' d,
    generate_survey_data n w = Ok (length (heap w), w') ∧
    heap w' = heap w ++ [d] ∧
    df_global w' = df_global w ∧
    columns d = survey_columns ∧
    Forall (λ r, dom r = survey_columns) (rows d).
Proof.
  intros Hn.
  destruct (generate_survey_data_run n w) as (new & Hgen & Hlen & Hall).
  rewrite (generated_rows _ _ Hall) in Hgen.
  destruct new as [|r1 new]; [simpl in Hlen; lia |].
  eexists _, _. split; [exact Hgen |]. split; [reflexivity |].
  split; [reflexivity |]. split; [reflexivity |].
  cbn [rows]. apply Forall_lookup_2. intros i r Hi.
  destruct (Hall i r Hi) as (s & Hs).
  destruct (pass_record _ _ _ Hs) as (p & u & d & im & st & -> & _).
  apply record_dom.
Qed.

Lemma generate_allocates_one_frame_witness :
  (1 <= 2)%Z ∧
  ∃ w' d,
    generate_survey_data 2 world_blank = Ok (length (heap world_blank), w') ∧
    heap w' = heap world_blank ++ [d] ∧
    df_global w' = df_global world_blank ∧
    columns d = survey_columns ∧
    Forall (λ r, dom r = survey_columns) (rows d).
Proof.
  split; [lia |]. apply (generate_allocates_one_frame 2 world_blank). lia.
Defined.

(** ** Order across scores *)

Lemma heavy_ranks (d i st : string) :
  heavy_values d i st →
  (3 <= index_of d distraction_levels)%nat ∧
  (3 <= index_of i impact_levels)%nat ∧
  (index_of st study_buckets <= 1)%nat.
Proof.
  intros (Hd & Hi & Hst). in_list Hd; in_list Hi; in_list Hst; simpl; lia.
Qed.

Lemma light_ranks (d i st : string) :
  light_values d i st →
  (index_of d distraction_levels <= 1)%nat ∧
  (index_of i impact_levels <= 2)%nat ∧
  (2 <= index_of st study_buckets)%nat.
Proof.
  intros (Hd & Hi & Hst). in_list Hd; in_list Hi; in_list Hst; simpl; lia.
Qed.

Lemma average_ranks (d i st : string) :
  average_values d i st →
  (2 <= index_of d distraction_levels <= 3)%nat ∧
  (2 <= index_of i impact_levels <= 3)%nat ∧
  (1 <= index_of st study_buckets <= 2)%nat.
Proof.
  intros (Hd & Hi & Hst). in_list Hd; in_list Hi; in_list Hst; simpl; lia.
Qed.

(** Across regimes the fields follow the score: of two rows whose scores
    lie in different regimes, the one with the lower score has a
    distraction level no higher, an impact no more negative and a study
    bucket no lower than the other. *)
Theorem fields_follow_the_regime
    (p1 p2 : string) (s1 s2 : Q) (w1 w2 : World) :
  ((s1 < 3)%Q ∧ (3 <= s2)%Q) ∨ ((s1 <= 6)%Q ∧ (6 < s2)%Q) →
  ∃ r1 w1' r2 w2' d1 i1 st1 d2 i2 st2,
    survey_row p1 s1 w1 = Ok (r1, w1') ∧ survey_row p2 s2 w2 = Ok (r2, w2') ∧
    fields r1 d1 i1 st1 ∧ fields r2 d2 i2 st2 ∧
    (index_of d1 distraction_levels <= index_of d2 distraction_levels)%nat ∧
    (index_of i1 impact_levels <= index_of i2 impact_levels)%nat ∧
    (index_of st2 study_buckets <= index_of st1 study_buckets)%nat.
Proof.
  intros Hs.
  destruct (survey_row_run p1 s1 w1) as (u1 & d1 & i1 & st1 & Hrun1 & _ & Hr1).
  destruct (survey_row_run p2 s2 w2) as (u2 & d2 & i2 & st2 & Hrun2 & _ & Hr2).
  eexists _, _, _, _, d1, i1, st1, d2, i2, st2.
  split; [exact Hrun1 |]. split; [exact Hrun2 |].
  split; [apply record_fields |]. split; [apply record_fields |].
  destruct (regime_cases _ _ _ _ Hr1) as [[L1 V1] | [[L1 V1] | (L1 & L1' & V1)]];
  destruct (regime_cases _ _ _ _ Hr2) as [[L2 V2] | [[L2 V2] | (L2 & L2' & V2)]];
    try (exfalso; destruct Hs as [[? ?] | [? ?]]; lra);
    repeat match goal with
           | H : heavy_values _ _ _ |- _ => apply heavy_ranks in H
           | H : light_values _ _ _ |- _ => apply light_ranks in H
           | H : average_values _ _ _ |- _ => apply average_ranks in H
           end; lia.
Qed.

Lemma fields_follow_the_regime_witness :
  (((2.5 < 3)%Q ∧ (3 <= 7)%Q) ∨ ((2.5 <= 6)%Q ∧ (6 < 7)%Q)) ∧
  ∃ r1 w1' r2 w2' d1 i1 st1 d2 i2 st2,
    survey_row "Data science" 2.5 world_blank = Ok (r1, w1') ∧
    survey_row "Fashion design" 7 world_blank = Ok (r2, w2') ∧
    fields r1 d1 i1 st1 ∧ fields r2 d2 i2 st2 ∧
    (index_of d1 distraction_levels <= index_of d2 distraction_levels)%nat ∧
    (index_of i1 impact_levels <= index_of i2 impact_levels)%nat ∧
    (index_of st2 study_buckets <= index_of st1 study_buckets)%nat.
Proof.
  assert (H : ((2.5 < 3)%Q ∧ (3 <= 7)%Q) ∨ ((2.5 <= 6)%Q ∧ (6 < 7)%Q)).
  { left. split; lra. }
  split; [exact H |].
  apply (fields_follow_the_regime "Data science" "Fashion design" 2.5 7
           world_blank world_blank H).
Defined.

Lemma bucket_rank (s : Q) (usage : string) :
  bucket s usage →
  ∃ m, sm_map !! usage = Some m ∧
    ((s < 2)%Q → index_of usage usage_buckets = 0%nat ∧ m = 0.5%Q) ∧
    ((2 <= s)%Q ∧ (s < 4)%Q → index_of usage usage_buckets = 1%nat ∧ m = 1.5%Q) ∧
    ((4 <= s)%Q ∧ (s < 6)%Q → index_of usage usage_buckets = 2%nat ∧ m = 3.5%Q) ∧
    ((6 <= s)%Q ∧ (s < 8)%Q → index_of usage usage_buckets = 3%nat ∧ m = 5.5%Q) ∧
    ((8 <= s)%Q → index_of usage usage_buckets = 4%nat ∧ m = 7%Q).
Proof.
  intros (H1 & H2 & H3 & H4 & H5).
  destruct (Qlt_le_dec s 2) as [L2 | L2].
  { rewrite (H1 L2). eexists. split; [reflexivity |].
    repeat split; intros; try done; exfalso; lra. }
  destruct (Qlt_le_dec s 4) as [L4 | L4].
  { rewrite (H2 (conj L2 L4)). eexists. split; [reflexivity |].
    repeat split; intros; try done; exfalso; lra. }
  destruct (Qlt_le_dec s 6) as [L6 | L6].
  { rewrite (H3 (conj L4 L6)). eexists. split; [reflexivity |].
    repeat split; intros; try done; exfalso; lra. }
  destruct (Qlt_le_dec s 8) as [L8 | L8].
  { rewrite (H4 (conj L6 L8)). eexists. split; [reflexivity |].
    repeat split; intros; try done; exfalso; lra. }
  rewrite (H5 L8). eexists. split; [reflexivity |].
  repeat split; intros; try done; exfalso; lra.
Qed.

(** The usage bucket follows the score: of two rows, the one with the
    lower score has the lower or the same bucket, and so the lower or the
    same midpoint on the scatter plot. *)
Theorem usage_follows_the_score
    (p1 p2 : string) (s1 s2 : Q) (w1 w2 : World) :
  (s1 <= s2)%Q →
  ∃ r1 w1' r2 w2' u1 u2 m1 m2,
    survey_row p1 s1 w1 = Ok (r1, w1') ∧ survey_row p2 s2 w2 = Ok (r2, w2') ∧
    usage_is r1 u1 ∧ usage_is r2 u2 ∧
    (index_of u1 usage_buckets <= index_of u2 usage_buckets)%nat ∧
    sm_map !! u1 = Some m1 ∧ sm_map !! u2 = Some m2 ∧ (m1 <= m2)%Q.
Proof.
  intros Hs.
  destruct (survey_row_run p1 s1 w1) as (u1 & d1 & i1 & st1 & Hrun1 & Hb1 & _).
  destruct (survey_row_run p2 s2 w2) as (u2 & d2 & i2 & st2 & Hrun2 & Hb2 & _).
  destruct (bucket_rank _ _ Hb1) as (m1 & Hm1 & A1 & A2 & A3 & A4 & A5).
  destruct (bucket_rank _ _ Hb2) as (m2 & Hm2 & B1 & B2 & B3 & B4 & B5).
  eexists _, _, _, _, u1, u2, m1, m2.
  split; [exact Hrun1 |]. split; [exact Hrun2 |].
  split; [apply record_fields |]. split; [apply record_fields |].
  assert (Hgoal : (index_of u1 usage_buckets <= index_of u2 usage_buckets)%nat ∧
                  (m1 <= m2)%Q).
  { destruct (Qlt_le_dec s1 2) as [a2 | a2];
      [destruct (A1 a2) as [-> ->] |
       destruct (Qlt_le_dec s1 4) as [a4 | a4];
         [destruct (A2 (conj a2 a4)) as [-> ->] |
          destruct (Qlt_le_dec s1 6) as [a6 | a6];
            [destruct (A3 (conj a4 a6)) as [-> ->] |
             destruct (Qlt_le_dec s1 8) as [a8 | a8];
               [destruct (A4 (conj a6 a8)) as [-> ->] |
                destruct (A5 a8) as [-> ->]]]]];
    (destruct (Qlt_le_dec s2 2) as [b2 | b2];
      [destruct (B1 b2) as [-> ->] |
       destruct (Qlt_le_dec s2 4) as [b4 | b4];
         [destruct (B2 (conj b2 b4)) as [-> ->] |
          destruct (Qlt_le_dec s2 6) as [b6 | b6];
            [destruct (B3 (conj b4 b6)) as [-> ->] |
             destruct (Qlt_le_dec s2 8) as [b8 | b8];
               [destruct (B4 (conj b6 b8)) as [-> ->] |
                destruct (B5 b8) as [-> ->]]]]]);
    first [exfalso; lra | split; [lia | lra]]. }
  destruct Hgoal as [Hi Hm]. by repeat split.
Qed.

Lemma usage_follows_the_score_witness :
  (-1 <= 11)%Q ∧
  ∃ r1 w1' r2 w2' u1 u2 m1 m2,
    survey_row "Data science" (-1) world_blank = Ok (r1, w1') ∧
    survey_row "Data science" 11 world_blank = Ok (r2, w2') ∧
    usage_is r1 u1 ∧ usage_is r2 u2 ∧
    (index_of u1 usage_buckets <= index_of u2 usage_buckets)%nat ∧
    sm_map !! u1 = Some m1 ∧ sm_map !! u2 = Some m2 ∧ (m1 <= m2)%Q.
Proof.
  assert (H : (-1 <= 11)%Q) by lra.
  split; [exact H |].
  apply (usage_follows_the_score "Data science" "Data science" (-1) 11
           world_blank world_blank H).
Defined.

(** ** The weights of the draws *)






(** ** Every level occurs *)

Lemma pass_on (t : list Q) (col : string) (v : value) :
  returned_cell col (survey_record (world_on t)) = Some v →
  ∃ w s r, pass w s r ∧ r !! col = Some v.
Proof.
  intros Hc.
  destruct (survey_record_run (world_on t)) as (s & r & Hrun & Hpass).
  rewrite Hrun in Hc. by exists (world_on t), s, r.
Qed.

(** The fixed domains are tight: each of the four programs, five usage
    buckets, four study buckets, five distraction levels and five impact
    levels is the cell of some row that one pass of the loop builds. *)
Theorem every_level_occurs :
  (∀ p, p ∈ programs →
     ∃ w s r, pass w s r ∧ r !! "Program_of_Study" = Some (VStr p)) ∧
  (∀ u, u ∈ usage_buckets →
     ∃ w s r, pass w s r ∧ r !! "Average_Daily_SM_Usage" = Some (VStr u)) ∧
  (∀ st, st ∈ study_buckets →
     ∃ w s r, pass w s r ∧ r !! "Daily_Study_Work_Hours" = Some (VStr st)) ∧
  (∀ d, d ∈ distraction_levels →
     ∃ w s r, pass w s r ∧ r !! "Distraction_Frequency" = Some (VStr d)) ∧
  (∀ i, i ∈ impact_levels →
     ∃ w s r, pass w s r ∧ r !! "Productivity_Impact" = Some (VStr i)).
Proof.
  split; [| split; [| split; [| split]]].
  - intros p Hp. unfold programs in Hp. in_list Hp.
    + by apply (pass_on [0%Q] "Program_of_Study").
    + by apply (pass_on [0.25%Q] "Program_of_Study").
    + by apply (pass_on [0.5%Q] "Program_of_Study").
    + by apply (pass_on [0.75%Q] "Program_of_Study").
  - intros u Hu. unfold usage_buckets in Hu. in_list Hu.
    + by apply (pass_on [0%Q; (-2)%Q] "Average_Daily_SM_Usage").
    + by apply (pass_on [0%Q; (-1)%Q] "Average_Daily_SM_Usage").
    + by apply (pass_on [0%Q; 0%Q] "Average_Daily_SM_Usage").
    + by apply (pass_on [0%Q; 0.8%Q] "Average_Daily_SM_Usage").
    + by apply (pass_on [0%Q; 2%Q] "Average_Daily_SM_Usage").
  - intros st Hst. unfold study_buckets in Hst. in_list Hst.
    + by apply (pass_on [0%Q; 2%Q; 0%Q; 0%Q; 0%Q] "Daily_Study_Work_Hours").
    + by apply (pass_on [0%Q; 2%Q; 0%Q; 0%Q; 0.7%Q] "Daily_Study_Work_Hours").
    + by apply (pass_on [0%Q; (-1)%Q; 0%Q; 0%Q; 0%Q] "Daily_Study_Work_Hours").
    + by apply (pass_on [0%Q; (-1)%Q; 0%Q; 0%Q; 0.7%Q] "Daily_Study_Work_Hours").
  - intros d Hd. unfold distraction_levels in Hd. in_list Hd.
    + by apply (pass_on [0%Q; (-1)%Q; 0%Q] "Distraction_Frequency").
    + by apply (pass_on [0%Q; (-1)%Q; 0.5%Q] "Distraction_Frequency").
    + by apply (pass_on [0%Q; 0%Q; 0%Q] "Distraction_Frequency").
    + by apply (pass_on [0%Q; 0%Q; 0.9%Q] "Distraction_Frequency").
    + by apply (pass_on [0%Q; 2%Q; 0.5%Q] "Distraction_Frequency").
  - intros i Hi. unfold impact_levels in Hi. in_list Hi.
    + by apply (pass_on [0%Q; (-1)%Q; 0%Q; 0%Q] "Productivity_Impact").
    + by apply (pass_on [0%Q; (-1)%Q; 0%Q; 0.3%Q] "Productivity_Impact").
    + by apply (pass_on [0%Q; (-1)%Q; 0%Q; 0.6%Q] "Productivity_Impact").
    + by apply (pass_on [0%Q; 2%Q; 0%Q; 0%Q] "Productivity_Impact").
    + by apply (pass_on [0%Q; 2%Q; 0%Q; 0.5%Q] "Productivity_Impact").
Qed.

(** ** The dropdown of the layout *)

Lemma value_same_str (s : string) (acc : list value) :
  existsb (value_same (VStr s)) acc = true ↔ VStr s ∈ acc.
Proof.
  rewrite existsb_exists. split.
  - intros (v & Hin & Hv). apply list_elem_of_In in Hin.
    destruct v as [t | q |]; simpl in Hv; try done.
    apply String.eqb_eq in Hv as ->. done.
  - intros Hin. exists (VStr s). split; [by apply list_elem_of_In |].
    simpl. apply String.eqb_refl.
Qed.

Lemma unique_acc_strings (col : list string) (acc : list value) :
  NoDup acc →
  NoDup (unique_acc acc (VStr <$> col)) ∧
  ∀ v, v ∈ unique_acc acc (VStr <$> col) ↔ v ∈ acc ∨ v ∈ VStr <$> col.
Proof.
  revert acc. induction col as [|s col IH]; intros acc Hnd.
  - simpl. split; [done |]. intros v. split; [by left |].
    intros [H | H]; [done | by apply elem_of_nil in H].
  - rewrite fmap_cons. cbn [unique_acc].
    destruct (existsb (value_same (VStr s)) acc) eqn:E.
    + apply value_same_str in E. destruct (IH acc Hnd) as [Hn Hm].
      split; [done |]. intros v. rewrite Hm, elem_of_cons.
      split; [intros [H | H]; auto |]. intros [H | [-> | H]]; auto.
    + assert (Hs : VStr s ∉ acc).
      { intros Hin. apply value_same_str in Hin. congruence. }
      destruct (IH (acc ++ [VStr s])) as [Hn Hm].
      { apply NoDup_app. split; [done |]. split; [| apply NoDup_singleton].
        intros x Hx Hx'. apply list_elem_of_singleton in Hx'. by subst. }
      split; [done |]. intros v.
      rewrite Hm, elem_of_app, list_elem_of_singleton, elem_of_cons. tauto.
Qed.

Lemma unique_strings (col : list string) :
  NoDup (unique (VStr <$> col)) ∧
  ∀ v, v ∈ unique (VStr <$> col) ↔ v ∈ VStr <$> col.
Proof.
  destruct (unique_acc_strings col [] (NoDup_nil_2)) as [Hn Hm].
  split; [done |]. intros v. unfold unique. rewrite Hm.
  split; [intros [H | H]; [by apply elem_of_nil in H | done] | by right].
Qed.

Lemma surveyed_programs (rs : list row) :
  Forall surveyed rs →
  ∃ ps, cell "Program_of_Study" <$> rs = VStr <$> ps ∧
        Forall (λ p, p ∈ programs) ps.
Proof.
  induction 1 as [|r rs Hr _ (ps & Hc & Hps)].
  - by exists [].
  - destruct Hr as (p & u & st & d & i & Hk & Hp & _).
    unfold key_cells in Hk. injection Hk as Hcp _ _ _ _.
    exists (p :: ps). rewrite !fmap_cons, Hc, Hcp. split; [done | by constructor].
Qed.

Lemma program_filter_run (w : World) (d : DataFrame) :
  heap w !! df_global w = Some d → "Program_of_Study" ∈ columns d →
  program_filter w
    = Ok (mkDropdown "program-filter"
            ((λ i, (i, i)) <$> unique (cell "Program_of_Study" <$> rows d))
            "Data science" false, w).
Proof.
  intros Hd Hc. unfold program_filter.
  erewrite bind_run; [| reflexivity].
  by rewrite (bind_run _ _ _ _ _ (getitem_run _ _ _ _ Hd Hc)).
Qed.

Lemma startup_run (entropy : nat → nat → Q) :
  ∃ w0 new,
    module_init (boot entropy) = Ok ((), w0) ∧
    heap w0 !! df_global w0 = Some (mkDataFrame survey_columns new) ∧
    length new = 100%nat ∧
    (∀ i r, new !! i = Some r →
       ∃ s, pass (advance_by (5 * i) (seeded (boot entropy))) s r) ∧
    startup (boot entropy)
      = Ok (mkDropdown "program-filter"
              ((λ i, (i, i)) <$> unique (cell "Program_of_Study" <$> new))
              "Data science" false, w0).
Proof.
  destruct (start_frame entropy) as (w0 & new & Hinit & Hd & Hlen & Hall).
  exists w0, new. repeat (split; [done |]).
  unfold startup. rewrite (bind_run _ _ _ _ _ Hinit).
  by rewrite (program_filter_run w0 _ Hd ltac:(by vm_compute)).
Qed.

(** The dropdown offers exactly the programs that occur among the hundred
    start-up records: each option once, its label equal to its value, at
    least one option and at most four, each one of the four programs. Its
    initial value is "Data science" whether that program is offered or
    not. *)
Theorem dropdown_offers_present_programs (entropy : nat → nat → Q) :
  ∃ dd w0 d,
    startup (boot entropy) = Ok (dd, w0) ∧
    heap w0 !! df_global w0 = Some d ∧
    NoDup (options dd) ∧
    (1 <= length (options dd) <= 4)%nat ∧
    Forall (λ o, fst o = snd o ∧ ∃ p, snd o = VStr p ∧ p ∈ programs) (options dd) ∧
    (∀ v, v ∈ snd <$> options dd ↔ v ∈ cell "Program_of_Study" <$> rows d) ∧
    dropdown_value dd = "Data science".
Proof.
  destruct (startup_run entropy) as (w0 & new & _ & Hd & Hlen & Hall & Hrun).
  eexists _, w0, _. split; [exact Hrun |]. split; [exact Hd |].
  cbn [options dropdown_value rows].
  assert (Hs : Forall surveyed new).
  { apply Forall_lookup_2. intros i r Hi. destruct (Hall i r Hi) as (s & Hs).
    by eapply surveyed_pass. }
  destruct (surveyed_programs new Hs) as (ps & Hcol & Hps).
  rewrite Hcol. destruct (unique_strings ps) as [Hnd Hmem].
  set (us := unique (VStr <$> ps)) in *.
  assert (Hsnd : snd <$> ((λ i : value, (i, i)) <$> us) = us).
  { rewrite <- list_fmap_compose. apply list_fmap_id. }
  assert (Hin : ∀ v, v ∈ us → v ∈ VStr <$> programs).
  { intros v Hv. apply Hmem, list_elem_of_fmap in Hv as (p & -> & Hp).
    apply list_elem_of_fmap. exists p. split; [done |].
    rewrite Forall_forall in Hps. by apply Hps. }
  split.
  { assert (Inj eq eq (λ i : value, (i, i))) by (intros x y H; by injection H).
    by apply (NoDup_fmap_2 (λ i : value, (i, i))). }
  split.
  { rewrite length_fmap. split.
    - destruct ps as [|p ps].
      { apply (f_equal length) in Hcol. rewrite !length_fmap in Hcol.
        simpl in Hcol. lia. }
      assert (Hp : VStr p ∈ us) by (apply Hmem; rewrite fmap_cons; apply list_elem_of_here).
      destruct us; [by apply elem_of_nil in Hp | simpl; lia].
    - change 4%nat with (length (VStr <$> programs)).
      by apply submseteq_length, NoDup_submseteq. }
  split.
  { apply Forall_fmap, Forall_forall. intros v Hv. simpl. split; [done |].
    apply Hin, list_elem_of_fmap in Hv as (p & -> & Hp). by exists p. }
  split; [| done].
  intros v. rewrite Hsnd. apply Hmem.
Qed.

(** ** Offered options and the default value *)

Lemma update_dashboard_column (n : Z) (sel : option string) (w : World) (d : DataFrame) :
  heap w !! df_global w = Some d →
  ∃ s r0 out w' d',
    pass (seeded w) s r0 ∧
    update_dashboard n sel w = Ok (out, w') ∧
    heap w' !! df_global w' = Some d' ∧
    (matching sel (appended d r0) ≠ [] → d' = appended d r0) ∧
    (matching sel (appended d r0) = [] → ∃ jx jy, d' = projected (appended d r0) jx jy) ∧
    ∀ c, c ≠ "SM_Numeric" → c ≠ "Study_Numeric" →
      cell c <$> rows d' = (cell c <$> rows d) ++ [cell c r0].
Proof.
  intros Hd.
  destruct (update_dashboard_run n sel w d Hd) as (s & r0 & w' & Hpass & Hrun & Hg).
  eexists s, r0, _, w', _. split; [exact Hpass |]. split; [exact Hrun |].
  split; [exact Hg |].
  destruct (matching sel (appended d r0)).
  - split; [done |]. split; [by eexists _, _ |]. intros c N1 N2.
    by rewrite projected_column, appended_column.
  - split; [done |]. split; [done |]. intros c _ _. apply appended_column.
Qed.




Lemma choice_programs_half (w w' : World) (p : string) :
  peek w = 0.5%Q → choice programs w = Ok (p, w') →
  p = "Arts and Interior Architecture".
Proof.
  intros Hpeek Hc.
  unfold choice, programs, randint, random_sample, next_variate in Hc.
  unfold mbind, M_bind, mret, M_ret in Hc. rewrite Hpeek in Hc.
  simpl in Hc. by injection Hc as <- _.
Qed.

Lemma pass_half (w : World) (s : Q) (r : row) :
  peek w = 0.5%Q → pass w s r →
  cell "Program_of_Study" r = VStr "Arts and Interior Architecture".
Proof.
  intros Hpeek (p & _ & Hc & _ & Hrow).
  apply (choice_programs_half _ _ _ Hpeek) in Hc as ->.
  destruct (survey_row_run "Arts and Interior Architecture" s (advance_by 2 w))
    as (u' & d' & i' & st' & Hrun & _).
  assert (Hr : r = record "Arts and Interior Architecture" u' st' d' i') by congruence.
  by rewrite Hr.
Qed.

Lemma module_init_entropy (entropy : nat → nat → Q) (w0 : World) :
  module_init (boot entropy) = Ok ((), w0) →
  os_entropy w0 = entropy ∧ reseeds w0 = 1%nat.
Proof.
  intros Hinit.
  destruct (generate_survey_data_run 100 (boot entropy)) as (new & Hgen & _).
  unfold module_init in Hinit. rewrite (bind_run _ _ _ _ _ Hgen) in Hinit.
  injection Hinit as <-. by split.
Qed.

(** The initial value of the dropdown is written in the layout and not
    taken from its options. There is a start-up (one whose draws give every
    record the same other program) in which "Data science" is not offered;
    the first call, made with that initial value, then matches no record,
    plots the whole Dataset and writes the two projection columns into
    it. *)
Theorem default_program_may_be_missing :
  ∃ entropy dd w0 out w' d',
    startup (boot entropy) = Ok (dd, w0) ∧
    (VStr (dropdown_value dd) ∉ snd <$> options dd) ∧
    update_dashboard 0 (Some (dropdown_value dd)) w0 = Ok (out, w') ∧
    heap w' !! df_global w' = Some d' ∧
    "SM_Numeric" ∈ columns d' ∧ "Study_Numeric" ∈ columns d'.
Proof.
  set (entropy := entropy_const 0.5%Q).
  destruct (startup_run entropy) as (w0 & new & Hinit & Hd0 & _ & Hall & Hstart).
  destruct (module_init_entropy entropy w0 Hinit) as [He Hk].
  assert (Harts : ∀ v, v ∈ cell "Program_of_Study" <$> new →
                       v = VStr "Arts and Interior Architecture").
  { intros v Hv. apply list_elem_of_fmap in Hv as (r & -> & Hr).
    apply list_elem_of_lookup in Hr as (i & Hi).
    destruct (Hall i r Hi) as (s & Hs).
    by apply (pass_half (advance_by (5 * i) (seeded (boot entropy))) s r). }
  destruct (update_dashboard_column 0 (Some "Data science") w0 _ Hd0)
    as (s & r0 & out & w' & d' & Hpass & Hrun & Hg & _ & Hfall & _).
  assert (Hr0 : cell "Program_of_Study" r0 = VStr "Arts and Interior Architecture").
  { apply (pass_half (seeded w0) s); [| exact Hpass].
    unfold peek, seeded. simpl. by rewrite He. }
  assert (Hnone : matching (Some "Data science")
                    (appended (mkDataFrame survey_columns new) r0) = []).
  { rewrite matching_hits.
    destruct (hits _ _) as [|r rest] eqn:E; [done |].
    assert (Hr : r ∈ hits (Some "Data science")
                       (rows (appended (mkDataFrame survey_columns new) r0)))
      by (rewrite E; apply list_elem_of_here).
    apply hits_spec in Hr as (Hr & p & [= <-] & Hc).
    assert (Hin : cell "Program_of_Study" r
                  ∈ cell "Program_of_Study"
                      <$> rows (appended (mkDataFrame survey_columns new) r0))
      by (by apply list_elem_of_fmap_2).
    rewrite appended_column in Hin. cbn [rows] in Hin.
    apply elem_of_app in Hin as [Hin | Hin].
    - apply Harts in Hin. congruence.
    - apply list_elem_of_singleton in Hin. congruence. }
  destruct (Hfall Hnone) as (jx & jy & ->).
  eexists entropy, _, w0, out, w', _. split; [exact Hstart |].
  cbn [dropdown_value options]. split.
  { intros Hin. rewrite <- list_fmap_compose, list_fmap_id in Hin.
    assert (Hs : Forall surveyed new).
    { apply Forall_lookup_2. intros i r Hi. destruct (Hall i r Hi) as (s' & Hs').
      by eapply surveyed_pass. }
    destruct (surveyed_programs new Hs) as (ps & Hps & _).
    rewrite Hps in Hin. apply (proj2 (unique_strings ps)) in Hin.
    rewrite <- Hps in Hin. apply Harts in Hin. congruence. }
  split; [exact Hrun |]. split; [exact Hg |].
  cbn [columns projected]. split; set_solver.
Qed.

(** ** What the figures and the stored projections hold *)

(** In every refresh of the running process each slice of the pie is named
    by one of the five impact levels and each point of the scatter is
    coloured by one of the five distraction levels: no figure shows a
    missing or foreign category. *)
Theorem figures_hold_levels (w : World) (n : Z) (sel : option string) :
  reachable w →
  ∃ fig1 fig2 fig3 text w',
    update_dashboard n sel w = Ok ((fig1, fig2, fig3, text), w') ∧
    Forall (λ name, ∃ i, name = VStr i ∧ i ∈ impact_levels) (pie_names fig3) ∧
    Forall (λ pt, ∃ d, snd pt = VStr d ∧ d ∈ distraction_levels)
           (scatter_points fig1).
Proof.
  intros Hreach.
  destruct (reachable_surveyed w Hreach) as (d & Hd & _ & Hs).
  destruct (update_dashboard_run n sel w d Hd) as (s & r0 & w' & Hpass & Hrun & _).
  unfold figures in Hrun.
  eexists _, _, _, _, w'. split; [exact Hrun |]. cbn [pie_names scatter_points].
  pose proof (surveyed_retained sel _
                (surveyed_appended d r0 Hs (surveyed_pass _ _ _ Hpass))) as Hplot.
  set (plotted := rows (retained sel (appended d r0))) in *.
  destruct (surveyed_column plotted Hplot) as (ds & ims & Hcd & Hds & Hci & His).
  split.
  - rewrite Hci. apply Forall_fmap. eapply Forall_impl; [exact His |].
    intros i Hi. by exists i.
  - set (jx := draws _ _ _ (advance_by 5 _)).
    set (jy := draws _ _ _ (advance_by (_ + 5) _)).
    assert (Hl : length (cell "Distraction_Frequency" <$> plotted) = length plotted)
      by apply length_fmap.
    assert (Hc : snd <$> zip3 (jittered sm_map "Average_Daily_SM_Usage" plotted jx)
                              (jittered study_map "Daily_Study_Work_Hours" plotted jy)
                              (cell "Distraction_Frequency" <$> plotted)
                 = VStr <$> ds).
    { rewrite <- Hcd. apply zip3_colors; rewrite Hl; apply length_jittered, length_draws. }
    assert (H : Forall (λ c, ∃ d, c = VStr d ∧ d ∈ distraction_levels)
                       (snd <$> zip3 (jittered sm_map "Average_Daily_SM_Usage" plotted jx)
                                     (jittered study_map "Daily_Study_Work_Hours" plotted jy)
                                     (cell "Distraction_Frequency" <$> plotted))).
    { rewrite Hc. apply Forall_fmap. eapply Forall_impl; [exact Hds |].
      intros x Hx. by exists x. }
    apply Forall_forall. intros pt Hpt. rewrite Forall_forall in H.
    apply (H (snd pt)). apply list_elem_of_fmap. by exists pt.
Qed.

Lemma figures_hold_levels_witness :
  reachable world_example ∧
  ∃ fig1 fig2 fig3 text w',
    update_dashboard 7 (Some "Fashion design") world_example
      = Ok ((fig1, fig2, fig3, text), w') ∧
    Forall (λ name, ∃ i, name = VStr i ∧ i ∈ impact_levels) (pie_names fig3) ∧
    Forall (λ pt, ∃ d, snd pt = VStr d ∧ d ∈ distraction_levels)
           (scatter_points fig1).
Proof.
  split; [exact world_example_reachable |].
  apply (figures_hold_levels world_example 7 (Some "Fashion design")).
  exact world_example_reachable.
Defined.


